(** * arch_install.py: an interactive Arch Linux installer

    A shallow embedding of [arch_install.py] and the properties of its
    partition planner, filesystem preparer, mount orchestrator, bootloader
    installer, system configurator and top-level flow.

    The script is a sequence of external effects (shell commands, pyparted
    calls, prompts, prints, file writes).  Every function of the script is
    embedded as a computation in a small monad that
    - receives the history of events that happened before it started,
    - receives the answers the operator has not typed yet,
    - returns a value or raises a Python exception,
    - reports the events it performed, oldest first.
    What the outside world answers (exit status of a command, geometry of a
    device, whether pyparted accepts a request) is read from a [World]. *)

From Stdlib Require Import String Ascii List ZArith NArith Lia Bool DecimalString.
Import ListNotations.
Local Open Scope list_scope.
Local Open Scope string_scope.

(** ** Python strings *)

Module Py.

Definition nl : string := String (ascii_of_nat 10) EmptyString.

(** [str.isspace] on the ASCII range: TAB, LF, VT, FF, CR, FS, GS, RS, US
    and the blank. *)
Definition is_space (c : ascii) : bool :=
  let n := nat_of_ascii c in
  (Nat.leb 9 n && Nat.leb n 13) || (Nat.leb 28 n && Nat.leb n 32).

Fixpoint lstrip (s : string) : string :=
  match s with
  | EmptyString => EmptyString
  | String c r => if is_space c then lstrip r else s
  end.

Fixpoint rstrip (s : string) : string :=
  match s with
  | EmptyString => EmptyString
  | String c r =>
      match rstrip r with
      | EmptyString => if is_space c then EmptyString else String c EmptyString
      | r' => String c r'
      end
  end.

(** [s.strip()] *)
Definition strip (s : string) : string := rstrip (lstrip s).

(** [s or d] *)
Definition or_else (s d : string) : string :=
  match s with EmptyString => d | _ => s end.

(** [s.split()]: the maximal runs of non-blank characters.  [cur] is the
    run being read, in reverse. *)
Fixpoint split_acc (cur : list ascii) (s : string) : list string :=
  let flush tail :=
    match cur with
    | [] => tail
    | _ => string_of_list_ascii (rev cur) :: tail
    end in
  match s with
  | EmptyString => flush []
  | String c r =>
      if is_space c then flush (split_acc [] r) else split_acc (c :: cur) r
  end.

Definition split (s : string) : list string := split_acc [] s.

(** [needle in hay] *)
Fixpoint contains (needle hay : string) : bool :=
  prefix needle hay ||
  match hay with
  | EmptyString => false
  | String _ r => contains needle r
  end.

(** [str(n)] for a non-negative integer. *)
Definition str_N (n : N) : string := NilZero.string_of_uint (N.to_uint n).

End Py.

(** ** pyparted values *)

(** [parted.Device]: only the two attributes the script reads. *)
Record Device := mkDevice {
  sectorSize : Z;
  getLength : Z
}.

(** [parted.Geometry(device, start, length)]. *)
Record Geometry := mkGeometry {
  g_start : Z;
  g_length : Z
}.

(** [geometry.end] *)
Definition g_end (g : Geometry) : Z := g_start g + g_length g - 1.

(** [parted.Partition(disk, type=PARTITION_NORMAL, fs=FileSystem(type, geometry))]
    with its boot flag. *)
Record Partition := mkPartition {
  fs_type : string;
  geometry : Geometry;
  boot_flag : bool
}.

Inductive parted_op :=
| GetDevice (path : string)
| FreshDisk (path : string) (label : string)
| NewGeometry (start length : Z)
| NewPartition (fs : string) (g : Geometry)
| SetFlagBoot (p : Partition)
| AddPartition (p : Partition)
| Commit.

(** ** Effects *)

(** What the operator does at a prompt. *)
Inductive reply :=
| Typed (line : string)
| CtrlC
| EOF.

(** How a child process ends: it exits with a status, or the operator
    interrupts it. *)
Inductive proc_outcome :=
| Exited (returncode : N) (stdout stderr : string)
| Killed.

Inductive event :=
| EPrint (line : string)                 (* print(line) *)
| EInput (prompt : string) (r : reply)   (* input(prompt) *)
| EGetpass (prompt : string) (r : reply) (* getpass.getpass(prompt) *)
| ERun (command : string)                (* subprocess.run(command, shell=True, ...) *)
| ECheckOutput (command : string)        (* subprocess.check_output(command, shell=True) *)
| EWriteFile (path : string) (content : string) (* with open(path, "w") as f: f.write(...) *)
| EParted (op : parted_op).

Inductive exn :=
| CalledProcessError (command : string) (returncode : N) (stderr : string)
| KeyboardInterrupt
| SystemExit (code : Z)
| EOFError
| TypeError (msg : string)
| IndexError (msg : string)
| ZeroDivisionError
| OSError (path : string)
| PartedException (op : parted_op)
| RecursionError.

(** [str(e)] *)
Definition str_exn (e : exn) : string :=
  match e with
  | CalledProcessError c rc _ =>
      "Command '" ++ c ++ "' returned non-zero exit status " ++ Py.str_N rc ++ "."
  | KeyboardInterrupt => EmptyString
  | SystemExit c => EmptyString
  | EOFError => "EOF when reading a line"
  | TypeError m => m
  | IndexError m => m
  | ZeroDivisionError => "integer division or modulo by zero"
  | OSError p => "[Errno 2] No such file or directory: '" ++ p ++ "'"
  | PartedException _ => "parted error"
  | RecursionError => "maximum recursion depth exceeded"
  end.

(** The environment of one run. *)
Record World := mkWorld {
  geteuid : Z;                                  (* os.geteuid() *)
  efi_exists : bool;                            (* os.path.exists("/sys/firmware/efi") *)
  shell : list event -> string -> proc_outcome; (* a child process, after a history *)
  device : string -> Device;                    (* the device behind a path *)
  parted_ok : list event -> parted_op -> bool;  (* pyparted accepts the request *)
  open_ok : list event -> string -> bool;       (* open(path, "w") succeeds *)
  recursion_limit : nat                         (* frames left for install_bootloader *)
}.

Inductive result (A : Type) :=
| Ok (a : A)
| Raise (e : exn).
Arguments Ok {A} a.
Arguments Raise {A} e.

Record Out (A : Type) := mkOut {
  res : result A;
  emitted : list event;
  unread : list reply
}.
Arguments mkOut {A}.
Arguments res {A}.
Arguments emitted {A}.
Arguments unread {A}.

(** A computation: history so far and pending operator replies in, result,
    events performed and replies left out. *)
Definition M (A : Type) : Type := list event -> list reply -> Out A.

Definition ret {A} (a : A) : M A := fun _ i => mkOut (Ok a) [] i.

Definition raise {A} (e : exn) : M A := fun _ i => mkOut (Raise e) [] i.

Definition bind {A B} (m : M A) (f : A -> M B) : M B :=
  fun h i =>
    let o := m h i in
    match res o with
    | Ok a =>
        let o' := f a (h ++ emitted o)%list (unread o) in
        mkOut (res o') (emitted o ++ emitted o')%list (unread o')
    | Raise e => mkOut (Raise e) (emitted o) (unread o)
    end.

(** [try: m  except <handled>: handler]; [handler e = None] when no clause
    matches [e]. *)
Definition try_except {A} (m : M A) (handler : exn -> option (M A)) : M A :=
  fun h i =>
    let o := m h i in
    match res o with
    | Ok a => o
    | Raise e =>
        match handler e with
        | Some k =>
            let o' := k (h ++ emitted o)%list (unread o) in
            mkOut (res o') (emitted o ++ emitted o')%list (unread o')
        | None => o
        end
    end.

Declare Scope py_scope.
Delimit Scope py_scope with py.
Notation "x <- m ;; k" := (bind m (fun x => k))
  (at level 61, m at next level, right associativity) : py_scope.
Notation "m ;; k" := (bind m (fun _ => k))
  (at level 61, right associativity) : py_scope.
Local Open Scope py_scope.

(** One event whose outcome does not depend on the world. *)
Definition emit (e : event) : M unit := fun _ i => mkOut (Ok tt) [e] i.

Definition print (line : string) : M unit := emit (EPrint line).

Definition sys_exit {A} (code : Z) : M A := raise (SystemExit code).

(** Reading a line: the next reply of the operator, [EOF] when none is left. *)
Definition read_line (mk : reply -> event) : M string :=
  fun _ i =>
    match i with
    | [] => mkOut (Raise EOFError) [mk EOF] []
    | Typed s :: i' => mkOut (Ok s) [mk (Typed s)] i'
    | CtrlC :: i' => mkOut (Raise KeyboardInterrupt) [mk CtrlC] i'
    | EOF :: i' => mkOut (Raise EOFError) [mk EOF] i'
    end.

Definition input (prompt : string) : M string := read_line (EInput prompt).

Definition getpass (prompt : string) : M string := read_line (EGetpass prompt).

(** The command lines the script runs and the text it prints. *)
Fixpoint commands (t : list event) : list string :=
  match t with
  | [] => []
  | ERun c :: t' => c :: commands t'
  | ECheckOutput c :: t' => c :: commands t'
  | _ :: t' => commands t'
  end.

(** Standard output: printed lines and the prompts of [input]. *)
Fixpoint printed (t : list event) : list string :=
  match t with
  | [] => []
  | EPrint l :: t' => l :: printed t'
  | EInput p _ :: t' => p :: printed t'
  | _ :: t' => printed t'
  end.

(** The partitions handed to [disk_obj.addPartition], in order: the plan. *)
Fixpoint planned (t : list event) : list Partition :=
  match t with
  | [] => []
  | EParted (AddPartition p) :: t' => p :: planned t'
  | _ :: t' => planned t'
  end.

(** The files written, oldest first. *)
Fixpoint written (t : list event) : list (string * string) :=
  match t with
  | [] => []
  | EWriteFile p c :: t' => (p, c) :: written t'
  | _ :: t' => written t'
  end.

Section Script.

Variable w : World.

(** *** Utility function to run shell commands *)

(** [subprocess.run(command, shell=True, check=True, text=True,
    capture_output=True)] *)
Definition subprocess_run (command : string) : M (string * string) :=
  fun h i =>
    match shell w h command with
    | Exited 0 out err => mkOut (Ok (out, err)) [ERun command] i
    | Exited rc out err =>
        mkOut (Raise (CalledProcessError command rc err)) [ERun command] i
    | Killed => mkOut (Raise KeyboardInterrupt) [ERun command] i
    end.

Definition run_command (command : string) : M (string * string) :=
  try_except (subprocess_run command)
    (fun e =>
       match e with
       | CalledProcessError _ _ err =>
           Some (print ("Error executing command: " ++ command) ;;
                 print ("Output: " ++ err) ;;
                 raise e)
       | _ => None
       end).

(** [subprocess.check_output(command, shell=True)] *)
Definition check_output (command : string) : M string :=
  fun h i =>
    match shell w h command with
    | Exited 0 out _ => mkOut (Ok out) [ECheckOutput command] i
    | Exited rc _ err =>
        mkOut (Raise (CalledProcessError command rc err)) [ECheckOutput command] i
    | Killed => mkOut (Raise KeyboardInterrupt) [ECheckOutput command] i
    end.

(** [with open(path, "w") as f:] followed by [f.write] of the pieces. *)
Definition write_file (path : string) (pieces : list string) : M unit :=
  fun h i =>
    if open_ok w h path
    then mkOut (Ok tt) [EWriteFile path (String.concat EmptyString pieces)] i
    else mkOut (Raise (OSError path)) [] i.

(** A pyparted call: recorded, then accepted or refused by the backend. *)
Definition parted_call (op : parted_op) : M unit :=
  fun h i =>
    if parted_ok w h op
    then mkOut (Ok tt) [EParted op] i
    else mkOut (Raise (PartedException op)) [EParted op] i.

(** *** Detect UEFI mode *)

Definition detect_uefi : M bool := ret (efi_exists w).

(** *** Check for internet connectivity *)

Definition check_internet : M bool :=
  print "Checking internet connectivity..." ;;
  try_except
    (run_command "ping -c 1 archlinux.org" ;;
     print "Internet connection confirmed." ;;
     ret true)
    (fun e =>
       match e with
       | CalledProcessError _ _ _ =>
           Some (print "No internet connection detected." ;; ret false)
       | _ => None
       end).

(** *** Configure network *)

Definition configure_network : M unit :=
  online <- check_internet ;;
  if online : bool then ret tt else
  print "Network configuration required." ;;
  answer <- input "Select network setup: [1] DHCP (wired), [2] Wi-Fi, [3] Skip: " ;;
  let choice := Py.strip answer in
  if choice =? "1" then
    run_command "dhcpcd" ;;
    online <- check_internet ;;
    if online : bool then print "Network configured via DHCP."
    else
      print "DHCP failed. Please configure manually or try Wi-Fi." ;;
      sys_exit 1
  else if choice =? "2" then
    print "Scanning for Wi-Fi networks..." ;;
    run_command "iwctl device list" ;;
    answer <- input "Enter wireless device name (e.g., wlan0): " ;;
    let device := Py.strip answer in
    run_command ("iwctl station " ++ device ++ " scan") ;;
    run_command ("iwctl station " ++ device ++ " get-networks") ;;
    answer <- input "Enter SSID: " ;;
    let ssid := Py.strip answer in
    password <- getpass "Enter Wi-Fi password (leave blank for none): " ;;
    (match password with
     | EmptyString =>
         run_command ("iwctl station " ++ device ++ " connect '" ++ ssid ++ "'")
     | _ =>
         run_command ("iwctl station " ++ device ++ " connect '" ++ ssid
                      ++ "' --passphrase '" ++ password ++ "'")
     end) ;;
    online <- check_internet ;;
    if online : bool then print "Wi-Fi configured successfully."
    else
      print "Wi-Fi connection failed. Please check credentials or configure manually." ;;
      sys_exit 1
  else
    print "Skipping network configuration. Installation may fail without internet." ;;
    sys_exit 1.

(** *** List available disks *)

(** The function builds an empty local list and ends without a [return]:
    its value is Python's [None], here [None : option (list string)]. *)
Definition list_disks : M (option (list string)) :=
  print "Detecting available disks..." ;;
  let disks : list string := [] in
  ret None.

(** *** Manual partitioning with cfdisk *)

Definition manual_partitioning (disk : string) : M (list string) :=
  print ("Launching cfdisk for manual partitioning on /dev/" ++ disk ++ "...") ;;
  run_command ("cfdisk /dev/" ++ disk) ;;
  print "Manual partitioning completed. Please verify your partitions with 'lsblk'." ;;
  answer <- input "Enter the partitions (e.g., /dev/sda1 /dev/sda2): " ;;
  ret (Py.split (Py.strip answer)).

(** *** Automatic partitioning *)

(** [a // b] *)
Definition floordiv (a b : Z) : M Z :=
  if (b =? 0)%Z then raise ZeroDivisionError else ret (a / b)%Z.

(** [parted.Geometry(device, start=start, length=length)] *)
Definition new_geometry (start length : Z) : M Geometry :=
  parted_call (NewGeometry start length) ;;
  ret (mkGeometry start length).

(** [parted.Partition(disk=disk_obj, type=parted.PARTITION_NORMAL,
    fs=parted.FileSystem(type=fs, geometry=g))] *)
Definition new_partition (fs : string) (g : Geometry) : M Partition :=
  parted_call (NewPartition fs g) ;;
  ret (mkPartition fs g false).

(** [part.setFlag(parted.PARTITION_BOOT)] *)
Definition setFlag_boot (p : Partition) : M Partition :=
  parted_call (SetFlagBoot p) ;;
  ret (mkPartition (fs_type p) (geometry p) true).

(** [disk_obj.addPartition(partition=p, constraint=device.optimalAlignedConstraint)] *)
Definition addPartition (p : Partition) : M unit := parted_call (AddPartition p).

Definition auto_partition_disk (disk : string) (uefi swap : bool) : M (list string) :=
  print ("Partitioning disk: /dev/" ++ disk) ;;
  parted_call (GetDevice ("/dev/" ++ disk)) ;;
  let dev := device w ("/dev/" ++ disk) in
  parted_call (FreshDisk ("/dev/" ++ disk) "gpt") ;;
  (* EFI partition (UEFI only) *)
  start <- (if uefi then
              let efi_size := (512 * 1024 * 1024)%Z in (* 512MB *)
              len <- floordiv (getLength dev * efi_size) (sectorSize dev) ;;
              efi_geometry <- new_geometry 1 len ;;
              efi_part <- new_partition "fat32" efi_geometry ;;
              efi_part <- setFlag_boot efi_part ;;
              addPartition efi_part ;;
              ret (g_end efi_geometry + 1)%Z
            else ret 1%Z) ;;
  (* Swap partition (if selected) *)
  start <- (if swap then
              let swap_size := (2 * 1024 * 1024 * 1024)%Z in (* 2GB *)
              len <- floordiv (getLength dev * swap_size) (sectorSize dev) ;;
              swap_geometry <- new_geometry start len ;;
              swap_part <- new_partition "swap" swap_geometry ;;
              addPartition swap_part ;;
              ret (g_end swap_geometry + 1)%Z
            else ret start) ;;
  (* Root partition (rest of the disk) *)
  root_geometry <- new_geometry start (getLength dev - start - 1) ;;
  root_part <- new_partition "ext4" root_geometry ;;
  addPartition root_part ;;
  parted_call Commit ;;
  print "Disk partitioning completed." ;;
  if uefi && swap then
    ret ["/dev/" ++ disk ++ "1"; "/dev/" ++ disk ++ "2"; "/dev/" ++ disk ++ "3"]
  else if uefi || swap then
    ret ["/dev/" ++ disk ++ "1"; "/dev/" ++ disk ++ "2"]
  else
    ret ["/dev/" ++ disk ++ "1"].

(** *** Partitioning choices *)

Definition partition_disk (disk : string) (uefi : bool) : M (list string) :=
  print ("Selected disk: " ++ disk) ;;
  print "Partitioning options:" ;;
  print "[1] Automatic: /boot (512MB, UEFI only) + / (rest)" ;;
  print "[2] Automatic with swap: /boot (512MB, UEFI only) + swap (2GB) + / (rest)" ;;
  print "[3] Manual partitioning with cfdisk" ;;
  answer <- input "Select partitioning option [1-3]: " ;;
  let choice := Py.strip answer in
  if choice =? "1" then auto_partition_disk disk uefi false
  else if choice =? "2" then auto_partition_disk disk uefi true
  else if choice =? "3" then manual_partitioning disk
  else
    print "Invalid choice. Defaulting to option 1." ;;
    auto_partition_disk disk uefi false.

(** *** Format partitions *)

(** The body of [for i, part in enumerate(partitions)]; [n] is
    [len(partitions)]. *)
Definition format_one (n : nat) (uefi : bool) (i : nat) (part : string) : M unit :=
  if uefi && (i =? 0)%nat then (* EFI partition *)
    run_command ("mkfs.fat -F32 " ++ part) ;; ret tt
  else if ((n =? 3)%nat && (i =? 1)%nat)
          || (negb uefi && (n =? 2)%nat && (i =? 0)%nat) then (* Swap *)
    run_command ("mkswap " ++ part) ;;
    run_command ("swapon " ++ part) ;; ret tt
  else (* Root or other *)
    run_command ("mkfs.ext4 " ++ part) ;; ret tt.

Fixpoint format_loop (n : nat) (uefi : bool) (i : nat) (parts : list string) : M unit :=
  match parts with
  | [] => ret tt
  | part :: rest => format_one n uefi i part ;; format_loop n uefi (S i) rest
  end.

Definition format_partitions (partitions : list string) (uefi : bool) : M unit :=
  print "Formatting partitions..." ;;
  format_loop (length partitions) uefi 0 partitions ;;
  print "Partitions formatted.".

(** *** Mount partitions *)

(** [partitions[-1]] and [partitions[0]] *)
Definition index_last (l : list string) : M string :=
  match rev l with
  | [] => raise (IndexError "list index out of range")
  | x :: _ => ret x
  end.

Definition index_first (l : list string) : M string :=
  match l with
  | [] => raise (IndexError "list index out of range")
  | x :: _ => ret x
  end.

Definition mount_partitions (partitions : list string) (uefi : bool) : M unit :=
  print "Mounting partitions..." ;;
  root_part <- index_last partitions ;; (* Last partition is always / *)
  run_command ("mount " ++ root_part ++ " /mnt") ;;
  (if uefi then
     efi_part <- index_first partitions ;;
     run_command "mkdir -p /mnt/boot" ;;
     run_command ("mount " ++ efi_part ++ " /mnt/boot") ;; ret tt
   else ret tt) ;;
  print "Partitions mounted.".

(** *** Setup Pacman *)

Definition setup_pacman : M unit :=
  print "Setting up Pacman..." ;;
  run_command "pacman-key --init" ;;
  run_command "pacman-key --populate archlinux" ;;
  run_command "echo 'Server = https://geo.mirror.pkgbuild.com/\$repo/os/\$arch' > /mnt/etc/pacman.d/mirrorlist" ;;
  run_command "pacman -Sy" ;;
  ret tt.

(** *** Install base system *)

Definition install_base_system : M unit :=
  print "Installing base system..." ;;
  run_command "pacstrap /mnt base linux linux-firmware" ;;
  print "Base system installed.".

(** *** Install desktop environment *)

Definition desktops : list (string * (string * string * string)) :=
  [ ("1", ("GNOME", "gnome gnome-shell", "gdm"));
    ("2", ("KDE Plasma", "plasma kde-applications", "sddm"));
    ("3", ("XFCE", "xfce4 xfce4-goodies lightdm lightdm-gtk-greeter", "lightdm"));
    ("4", ("COSMIC (System76)", "cosmic-session", "cosmic-session"));
    ("5", ("MATE", "mate mate-extra", "lightdm"));
    ("6", ("Cinnamon", "cinnamon lightdm lightdm-gtk-greeter", "lightdm"));
    ("7", ("LXQt", "lxqt lightdm lightdm-gtk-greeter", "lightdm"));
    ("8", ("None", EmptyString, EmptyString)) ].

Fixpoint dict_get {V} (d : list (string * V)) (k : string) : option V :=
  match d with
  | [] => None
  | (k', v) :: d' => if k' =? k then Some v else dict_get d' k
  end.

Fixpoint print_options (d : list (string * (string * string * string))) : M unit :=
  match d with
  | [] => ret tt
  | (key, (name, _, _)) :: d' =>
      print ("[" ++ key ++ "] " ++ name) ;; print_options d'
  end.

Definition install_desktop_environment : M unit :=
  print "Desktop environment options:" ;;
  print_options desktops ;;
  answer <- input "Select desktop environment [1-8]: " ;;
  let choice := Py.or_else (Py.strip answer) "8" in
  match dict_get desktops choice with
  | Some (name, packages, dm) =>
      if negb (choice =? "8") then
        print ("Installing " ++ name ++ "...") ;;
        run_command ("arch-chroot /mnt pacman -S --noconfirm " ++ packages ++ " xorg") ;;
        (match dm with
         | EmptyString => ret tt
         | _ => run_command ("arch-chroot /mnt systemctl enable " ++ dm) ;; ret tt
         end) ;;
        print (name ++ " installed and configured.")
      else print "No desktop environment will be installed."
  | None => print "No desktop environment will be installed."
  end.

(** *** Generate fstab *)

Definition generate_fstab : M unit :=
  print "Generating fstab..." ;;
  run_command "genfstab -U /mnt >> /mnt/etc/fstab" ;;
  print "fstab generated.".

(** *** Install bootloader *)

(** ["arch-chroot /mnt /bin/bash -c '{}'".format(x)] *)
Definition chroot_cmd (x : string) : string :=
  "arch-chroot /mnt /bin/bash -c '" ++ x ++ "'".

(** The function calls itself in its last branch.  [depth] is the number
    of frames the interpreter still grants: a call with none left raises
    [RecursionError]. *)
Fixpoint install_bootloader (depth : nat) (disk : string) (uefi : bool) : M unit :=
  match depth with
  | O => raise RecursionError
  | S depth' =>
      choice <- (if negb uefi then
                   print "BIOS detected. Only GRUB (BIOS) is supported." ;;
                   ret "1"
                 else
                   print "UEFI detected. Bootloader options:" ;;
                   print "[1] GRUB (UEFI)" ;;
                   print "[2] systemd-boot" ;;
                   print "[3] rEFInd" ;;
                   answer <- input "Select bootloader [1-3]: " ;;
                   ret (Py.or_else (Py.strip answer) "1")) ;;
      (if choice =? "1" then
         print "Installing GRUB..." ;;
         run_command (chroot_cmd "pacman -S --noconfirm grub") ;;
         (if uefi then
            run_command (chroot_cmd "pacman -S --noconfirm efibootmgr") ;;
            run_command (chroot_cmd "grub-install --target=x86_64-efi --efi-directory=/boot --bootloader-id=GRUB")
          else
            run_command (chroot_cmd ("grub-install --target=i386-pc /dev/" ++ disk))) ;;
         run_command (chroot_cmd "grub-mkconfig -o /boot/grub/grub.cfg") ;;
         ret tt
       else if (choice =? "2") && uefi then
         print "Installing systemd-boot..." ;;
         run_command (chroot_cmd "pacman -S --noconfirm efibootmgr") ;;
         run_command (chroot_cmd "bootctl --path=/boot install") ;;
         write_file "/mnt/boot/loader/loader.conf"
           [ "default arch" ++ Py.nl; "timeout 3" ++ Py.nl; "editor 0" ++ Py.nl ] ;;
         output <- check_output ("blkid -s UUID -o value /dev/" ++ disk ++ "2") ;;
         let root_uuid := Py.strip output in
         write_file "/mnt/boot/loader/entries/arch.conf"
           [ "title Arch Linux" ++ Py.nl;
             "linux /vmlinuz-linux" ++ Py.nl;
             "initrd /initramfs-linux.img" ++ Py.nl;
             "options root=UUID=" ++ root_uuid ++ " rw" ++ Py.nl ]
       else if (choice =? "3") && uefi then
         print "Installing rEFInd..." ;;
         run_command (chroot_cmd "pacman -S --noconfirm refind") ;;
         run_command (chroot_cmd "refind-install") ;;
         ret tt
       else
         print "Invalid choice or not supported in BIOS mode. Defaulting to GRUB." ;;
         install_bootloader depth' disk uefi (* Recursive call with default *)) ;;
      print "Bootloader installed."
  end.

(** *** Configure system *)

Definition configure_system (disk : string) (uefi : bool)
    (hostname username password : string) : M unit :=
  print "Configuring system..." ;;
  (* Set hostname *)
  run_command (chroot_cmd ("echo " ++ hostname ++ " > /etc/hostname")) ;;
  run_command (chroot_cmd "echo '127.0.0.1 localhost' >> /etc/hosts") ;;
  run_command (chroot_cmd "echo '::1       localhost' >> /etc/hosts") ;;
  run_command (chroot_cmd ("echo '127.0.1.1 " ++ hostname ++ ".localdomain "
                           ++ hostname ++ "' >> /etc/hosts")) ;;
  (* Set timezone (default to UTC) *)
  run_command (chroot_cmd "ln -sf /usr/share/zoneinfo/UTC /etc/localtime") ;;
  run_command (chroot_cmd "hwclock --systohc") ;;
  (* Set locale *)
  run_command (chroot_cmd "echo 'en_US.UTF-8 UTF-8' >> /etc/locale.gen") ;;
  run_command (chroot_cmd "locale-gen") ;;
  run_command (chroot_cmd "echo 'LANG=en_US.UTF-8' > /etc/locale.conf") ;;
  (* Set root password *)
  run_command (chroot_cmd ("echo 'root:" ++ password ++ "' | chpasswd")) ;;
  (* Create user *)
  run_command (chroot_cmd ("useradd -m -G wheel " ++ username)) ;;
  run_command (chroot_cmd ("echo '" ++ username ++ ":" ++ password ++ "' | chpasswd")) ;;
  run_command (chroot_cmd "sed -i 's/# %wheel ALL=(ALL:ALL) ALL/%wheel ALL=(ALL:ALL) ALL/' /etc/sudoers") ;;
  (* Enable network services *)
  run_command (chroot_cmd "pacman -S --noconfirm networkmanager") ;;
  run_command (chroot_cmd "systemctl enable NetworkManager") ;;
  (* Install bootloader *)
  install_bootloader (recursion_limit w) disk uefi ;;
  print "System configuration completed.".

(** *** Main installation flow *)

(** [repr] of the value of [list_disks()], as [print] shows it. *)
Definition repr_disks (disks : option (list string)) : string :=
  match disks with
  | None => "None"
  | Some l => "[" ++ String.concat ", " (map (fun d => "'" ++ d ++ "'") l) ++ "]"
  end.

(** [x not in [f"/dev/{d}" for d in disks]]: iterating over [None] raises. *)
Definition not_in_dev_paths (x : string) (disks : option (list string)) : M bool :=
  match disks with
  | None => raise (TypeError "'NoneType' object is not iterable")
  | Some l => ret (negb (existsb (String.eqb x) (map (fun d => "/dev/" ++ d) l)))
  end.

Definition main : M unit :=
  print "Arch Linux Installation Script" ;;
  print "=================================" ;;
  (* Detect UEFI *)
  uefi <- detect_uefi ;;
  print ("Boot mode: " ++ (if uefi : bool then "UEFI" else "BIOS")) ;;
  (* Configure network *)
  configure_network ;;
  (* Select disk *)
  disks <- list_disks ;;
  print ("Available disks: " ++ repr_disks disks) ;;
  answer <- input "Select a disk (e.g., sda, nvme0n1): " ;;
  let disk := Py.strip answer in
  invalid <- not_in_dev_paths ("/dev/" ++ disk) disks ;;
  (if invalid : bool then
     print "Invalid disk selected." ;;
     sys_exit 1
   else ret tt) ;;
  (* Partition and format *)
  partitions <- partition_disk disk uefi ;;
  format_partitions partitions uefi ;;
  mount_partitions partitions uefi ;;
  (* Setup Pacman and install base system *)
  setup_pacman ;;
  install_base_system ;;
  generate_fstab ;;
  (* Install desktop environment *)
  install_desktop_environment ;;
  (* User input for configuration *)
  answer <- input "Enter hostname: " ;;
  let hostname := Py.or_else (Py.strip answer) "archlinux" in
  answer <- input "Enter username: " ;;
  let username := Py.strip answer in
  password <- getpass "Enter password: " ;;
  (* Configure system *)
  configure_system disk uefi hostname username password ;;
  (* Unmount and finish *)
  run_command "umount -R /mnt" ;;
  print "Installation completed! You can now reboot into your new Arch Linux system.".

(** The module body: the root check, then the [__main__] block. *)
Definition script : M unit :=
  if negb (geteuid w =? 0)%Z then
    print "This script must be run as root. Please use sudo or switch to root." ;;
    sys_exit 1
  else
    try_except main
      (fun e =>
         match e with
         | KeyboardInterrupt =>
             Some (print (Py.nl ++ "Installation aborted by user.") ;; sys_exit 1)
         | SystemExit _ => None
         | _ => Some (print ("An error occurred: " ++ str_exn e) ;; sys_exit 1)
         end).

End Script.

(** The exit status of the interpreter for the outcome of the module body. *)
Definition exit_code (r : result unit) : Z :=
  match r with
  | Ok _ => 0
  | Raise (SystemExit c) => c
  | Raise _ => 1
  end.

(** One run of the program: the operator's replies in, outcome out. *)
Definition run (w : World) (replies : list reply) : Out unit := script w [] replies.

(** * Vocabulary of the properties *)

(** ** Worlds *)

(** Every child process exits with status 0. *)
Definition commands_succeed (w : World) : Prop :=
  forall h c, exists out err, shell w h c = Exited 0 out err.

(** pyparted accepts every request. *)
Definition backend_accepts (w : World) : Prop :=
  forall h op, parted_ok w h op = true.

(** A machine where everything works: root, UEFI firmware, a disk of
    [len] sectors of [ss] bytes, commands that print [stdout_of c] and exit
    with 0. *)
Definition healthy_world (ss len : Z) (stdout_of : string -> string) : World :=
  {| geteuid := 0;
     efi_exists := true;
     shell := fun _ c => Exited 0 (stdout_of c) EmptyString;
     device := fun _ => mkDevice ss len;
     parted_ok := fun _ _ => true;
     open_ok := fun _ _ => true;
     recursion_limit := 1000 |}.

Definition silent (c : string) : string := EmptyString.

(** A machine on which [chpasswd] exits with status 1. *)
Definition chpasswd_fails : World :=
  {| geteuid := 0;
     efi_exists := true;
     shell := fun _ c =>
       if Py.contains "chpasswd" c
       then Exited 1 EmptyString "chpasswd: cannot lock /etc/passwd; try again later."
       else Exited 0 EmptyString EmptyString;
     device := fun _ => mkDevice 512 2097152;
     parted_ok := fun _ _ => true;
     open_ok := fun _ _ => true;
     recursion_limit := 1000 |}.

(** [blkid] on a disk laid out as EFI, swap, root. *)
Definition blkid_efi_swap_root (c : string) : string :=
  if c =? "blkid -s UUID -o value /dev/sda1" then "5E1F-0001" ++ Py.nl
  else if c =? "blkid -s UUID -o value /dev/sda2" then "aaaaaaaa-5a4b-4c3d-8e2f-000000000002" ++ Py.nl
  else if c =? "blkid -s UUID -o value /dev/sda3" then "bbbbbbbb-5a4b-4c3d-8e2f-000000000003" ++ Py.nl
  else EmptyString.

(** ** Runs *)

(** [m], started after [h] with the replies [i] pending, returns [a],
    performs [ev] and leaves the replies [i']. *)
Definition returns {A} (m : M A) (h : list event) (i : list reply)
    (a : A) (ev : list event) (i' : list reply) : Prop :=
  m h i = mkOut (Ok a) ev i'.

(** The same for any result, a value or an exception. *)
Definition outcome {A} (m : M A) (h : list event) (i : list reply)
    (r : result A) (ev : list event) (i' : list reply) : Prop :=
  m h i = mkOut r ev i'.

(** The same, for a value nobody looks at. *)
Definition completes {A} (m : M A) (h : list event) (i : list reply)
    (ev : list event) (i' : list reply) : Prop :=
  exists a, returns m h i a ev i'.

(** In every run of [m], every event satisfies [P], an exception raised
    satisfies [E] and a value returned satisfies [Q]. *)
Definition safe {A} (P : event -> Prop) (E : exn -> Prop) (Q : A -> Prop)
    (m : M A) : Prop :=
  forall h i,
    Forall P (emitted (m h i))
    /\ (forall e, res (m h i) = Raise e -> E e)
    /\ (forall a, res (m h i) = Ok a -> Q a).

(** A run of commands stops at the first that fails: what was issued is an
    initial part of what was meant. *)
Definition initial_part (issued meant : list string) : Prop :=
  exists rest, meant = (issued ++ rest)%list.

(** [m] issues the commands [cs]: in every run an initial part of them,
    all of them when it returns, and it returns, a value that satisfies
    [Q], when the commands succeed. *)
Definition issues (w : World) {A} (m : M A) (Q : A -> Prop) (cs : list string) : Prop :=
  forall h i,
    initial_part (commands (emitted (m h i))) cs
    /\ (forall a, res (m h i) = Ok a -> Q a /\ commands (emitted (m h i)) = cs)
    /\ (commands_succeed w -> exists a, res (m h i) = Ok a).

Ltac unfold_script :=
  unfold run_command, subprocess_run, check_output, write_file, try_except,
    print, emit, bind, ret, raise, sys_exit.

(** ** The partition plan *)

(** The role of a planned partition, as the comments of
    [auto_partition_disk] name them. *)
Inductive role := EFI | SWAP | ROOT.

Definition role_of (p : Partition) : option role :=
  if fs_type p =? "fat32" then Some EFI
  else if fs_type p =? "swap" then Some SWAP
  else if fs_type p =? "ext4" then Some ROOT
  else None.

(** The roles of a plan for a firmware mode and a swap flag. *)
Definition plan_roles (uefi swap : bool) : list role :=
  ((if uefi then [EFI] else []) ++ (if swap then [SWAP] else []) ++ [ROOT])%list.

(** [/dev/<disk><index>] for the indices 1 .. n. *)
Definition numbered_paths (disk : string) (n : nat) : list string :=
  map (fun k => "/dev/" ++ disk ++ Py.str_N (N.of_nat k)) (seq 1 n).

(** File system and length in sectors of each planned partition. *)
Definition plan_lengths (t : list event) : list (string * Z) :=
  map (fun p => (fs_type p, g_length (geometry p))) (planned t).

(** ** Formatting and mounting *)

(** The commands that prepare a partition of a given role. *)
Definition format_commands (r : role) (path : string) : list string :=
  match r with
  | EFI => ["mkfs.fat -F32 " ++ path]
  | SWAP => ["mkswap " ++ path; "swapon " ++ path]
  | ROOT => ["mkfs.ext4 " ++ path]
  end.

(** Role by role along the plan, each on the path at the same position. *)
Definition format_plan (rs : list role) (paths : list string) : list string :=
  flat_map (fun rp => format_commands (fst rp) (snd rp)) (combine rs paths).

(** What [mount_partitions] is meant to run: the root mount, then under
    UEFI the boot directory and the mount of the first path below it. *)
Definition mount_plan (partitions : list string) (uefi : bool) : list string :=
  ("mount " ++ last partitions EmptyString ++ " /mnt")
  :: (if uefi
      then ["mkdir -p /mnt/boot"; "mount " ++ hd EmptyString partitions ++ " /mnt/boot"]
      else []).

(** ** The bootloader installer *)

(** The content of the last file written at [path]. *)
Definition file_content (t : list event) (path : string) : option string :=
  option_map snd (find (fun pc => fst pc =? path) (rev (written t))).

Definition retry_notice : string :=
  "Invalid choice or not supported in BIOS mode. Defaulting to GRUB.".

(** How many times the installer fell into its last branch and called
    itself again. *)
Fixpoint retries (t : list event) : nat :=
  match t with
  | [] => 0
  | EPrint l :: t' => (if l =? retry_notice then 1 else 0) + retries t'
  | _ :: t' => retries t'
  end.

(** How many times the operator was asked for a bootloader. *)
Fixpoint bootloader_prompts (t : list event) : nat :=
  match t with
  | [] => 0
  | EInput p _ :: t' => (if p =? "Select bootloader [1-3]: " then 1 else 0) + bootloader_prompts t'
  | _ :: t' => bootloader_prompts t'
  end.

(** One turn of the last branch under UEFI: the menu, an answer that is
    none of the three choices, the notice, and the call of the function on
    itself, which asks again. *)
Definition retry_events (line : string) : list event :=
  [ EPrint "UEFI detected. Bootloader options:";
    EPrint "[1] GRUB (UEFI)";
    EPrint "[2] systemd-boot";
    EPrint "[3] rEFInd";
    EInput "Select bootloader [1-3]: " (Typed line);
    EPrint retry_notice ].

(** ** The password *)

(** Some printed line holds [secret]. *)
Definition leaks (secret : string) (t : list event) : bool :=
  existsb (Py.contains secret) (printed t).

(** ** Disk selection *)

Definition disk_prompt : string := "Select a disk (e.g., sda, nvme0n1): ".

Definition none_not_iterable : string := "'NoneType' object is not iterable".

(** A request to pyparted, or a run of cfdisk. *)
Definition is_partitioning (e : event) : bool :=
  match e with
  | EParted _ => true
  | ERun c | ECheckOutput c => prefix "cfdisk" c
  | _ => false
  end.

Definition is_formatting (e : event) : bool :=
  match e with
  | ERun c | ECheckOutput c => prefix "mkfs." c || prefix "mkswap" c || prefix "swapon" c
  | _ => false
  end.

Definition is_mounting (e : event) : bool :=
  match e with
  | ERun c | ECheckOutput c => prefix "mount" c
  | _ => false
  end.

Definition says_invalid_disk (e : event) : bool :=
  match e with
  | EPrint l => l =? "Invalid disk selected."
  | _ => false
  end.

Definition asks_disk (e : event) : bool :=
  match e with
  | EInput p _ => p =? disk_prompt
  | _ => false
  end.

(** Nothing that touches the disk, and no word of an invalid disk. *)
Definition untouched (e : event) : bool :=
  negb (is_partitioning e || is_formatting e || is_mounting e || says_invalid_disk e).

(** The disks among which the operator's answer is looked up: none when
    the detection gave no list. *)
Definition detected (disks : option (list string)) (d : string) : Prop :=
  match disks with
  | Some l => In d l
  | None => False
  end.

(** The reply the next prompt receives. *)
Definition next_reply (i : list reply) : reply :=
  match i with
  | [] => EOF
  | r :: _ => r
  end.

(** How the statement after the disk prompt ends for each reply: the
    membership test iterates over [None]. *)
Definition after_disk_prompt (r : reply) : exn :=
  match r with
  | Typed _ => TypeError none_not_iterable
  | CtrlC => KeyboardInterrupt
  | EOF => EOFError
  end.

Definition banner (w : World) : list event :=
  [ EPrint "Arch Linux Installation Script";
    EPrint "=================================";
    EPrint ("Boot mode: " ++ (if efi_exists w then "UEFI" else "BIOS")) ].

Definition disk_listing : list event :=
  [ EPrint "Detecting available disks..."; EPrint "Available disks: None" ].

(** ** The network step *)

Definition ping : string := "ping -c 1 archlinux.org".

Definition checking : event := EPrint "Checking internet connectivity...".

(** What [check_internet] performs when the ping succeeds, and when it
    exits with a non-zero status and the text [err] on its error stream. *)
Definition online_events : list event :=
  [ checking; ERun ping; EPrint "Internet connection confirmed." ].

Definition offline_events (err : string) : list event :=
  [ checking; ERun ping;
    EPrint ("Error executing command: " ++ ping);
    EPrint ("Output: " ++ err);
    EPrint "No internet connection detected." ].


(** The commands of the network step: the ping, dhcpcd, and iwctl. *)
Definition network_command (c : string) : Prop :=
  c = ping \/ c = "dhcpcd" \/ prefix "iwctl " c = true.

(** ** The layout of the automatic plan *)





(** ** Formatting any list of paths *)

(** Neither the swap format nor the swap activation. *)
Definition not_swap_command (c : string) : Prop :=
  prefix "mkswap" c = false /\ prefix "swapon" c = false.

(** ** Desktop environment and bootloader *)

(** The choice [install_desktop_environment] makes of the operator's line. *)
Definition desktop_choice (line : string) : string :=
  Py.or_else (Py.strip line) "8".

(** The choice [install_bootloader] makes of the operator's line under UEFI. *)
Definition bootloader_choice (line : string) : string :=
  Py.or_else (Py.strip line) "1".

(** Every [open(path, "w")] succeeds. *)
Definition files_open (w : World) : Prop :=
  forall h p, open_ok w h p = true.

Definition blkid_query (disk : string) : string :=
  "blkid -s UUID -o value /dev/" ++ disk ++ "2".

Definition loader_conf : string :=
  "default arch" ++ Py.nl ++ "timeout 3" ++ Py.nl ++ "editor 0" ++ Py.nl.

Definition loader_entry (uuid : string) : string :=
  "title Arch Linux" ++ Py.nl ++
  "linux /vmlinuz-linux" ++ Py.nl ++
  "initrd /initramfs-linux.img" ++ Py.nl ++
  "options root=UUID=" ++ uuid ++ " rw" ++ Py.nl.

(** What [install_bootloader] performs under UEFI up to the query of the
    UUID, when the operator's line chooses systemd-boot. *)
Definition systemd_boot_start (line : string) : list event :=
  [ EPrint "UEFI detected. Bootloader options:";
    EPrint "[1] GRUB (UEFI)";
    EPrint "[2] systemd-boot";
    EPrint "[3] rEFInd";
    EInput "Select bootloader [1-3]: " (Typed line);
    EPrint "Installing systemd-boot...";
    ERun (chroot_cmd "pacman -S --noconfirm efibootmgr");
    ERun (chroot_cmd "bootctl --path=/boot install");
    EWriteFile "/mnt/boot/loader/loader.conf" loader_conf ].

(** A command run inside the installed system. *)
Definition in_chroot (c : string) : Prop :=
  prefix "arch-chroot /mnt /bin/bash -c '" c = true.

(** ** The system configuration *)



(** ** DHCP *)

Definition network_menu (line : string) : list event :=
  [ EPrint "Network configuration required.";
    EInput "Select network setup: [1] DHCP (wired), [2] Wi-Fi, [3] Skip: " (Typed line) ].

(** Some earlier event ran dhcpcd. *)
Definition dhcpcd_ran (h : list event) : bool :=
  existsb (fun e => match e with ERun c => c =? "dhcpcd" | _ => false end) h.

(** A machine whose network comes up once dhcpcd has run. *)
Definition wired_world : World :=
  {| geteuid := 0;
     efi_exists := false;
     shell := fun h c =>
       if (c =? ping) && negb (dhcpcd_ran h)
       then Exited 2 EmptyString "ping: archlinux.org: Name or service not known"
       else Exited 0 EmptyString EmptyString;
     device := fun _ => mkDevice 512 2097152;
     parted_ok := fun _ _ => true;
     open_ok := fun _ _ => true;
     recursion_limit := 1000 |}.

(** * Properties *)

(** ** Worlds *)

Lemma healthy_commands_succeed ss len f : commands_succeed (healthy_world ss len f).
Proof. intros h c. exists (f c), EmptyString. reflexivity. Qed.

Lemma healthy_backend_accepts ss len f : backend_accepts (healthy_world ss len f).
Proof. intros h op. reflexivity. Qed.

(** ** Runs *)

Lemma returns_bind {A B} (m : M A) (f : A -> M B) h i a ev i' b ev' i'' :
  returns m h i a ev i' ->
  returns (f a) (h ++ ev) i' b ev' i'' ->
  returns (bind m f) h i b (ev ++ ev') i''.
Proof.
  unfold returns, bind. intros -> . cbn [res emitted unread]. intros -> . reflexivity.
Qed.

Lemma returns_bind_completes {A B} (m : M A) (f : A -> M B) h i ev i' b ev' i'' :
  completes m h i ev i' ->
  (forall a, returns (f a) (h ++ ev) i' b ev' i'') ->
  returns (bind m f) h i b (ev ++ ev') i''.
Proof. intros [a Ha] Hf. exact (returns_bind m f _ _ _ _ _ _ _ _ Ha (Hf a)). Qed.

Lemma completes_bind {A B} (m : M A) (f : A -> M B) h i ev i' ev' i'' :
  completes m h i ev i' ->
  (forall a, completes (f a) (h ++ ev) i' ev' i'') ->
  completes (bind m f) h i (ev ++ ev') i''.
Proof.
  intros [a Ha] Hf. destruct (Hf a) as [b Hb]. exists b.
  exact (returns_bind m f _ _ _ _ _ _ _ _ Ha Hb).
Qed.

Lemma completes_of_returns {A} (m : M A) h i a ev i' :
  returns m h i a ev i' -> completes m h i ev i'.
Proof. intros H. exists a. exact H. Qed.

Lemma outcome_bind_ok {A B} (m : M A) (f : A -> M B) h i a ev i' r ev' i'' :
  returns m h i a ev i' ->
  outcome (f a) (h ++ ev) i' r ev' i'' ->
  outcome (bind m f) h i r (ev ++ ev') i''.
Proof.
  unfold returns, outcome, bind. intros -> . cbn [res emitted unread]. intros -> . reflexivity.
Qed.

Lemma outcome_bind_raise {A B} (m : M A) (f : A -> M B) h i e ev i' :
  outcome m h i (Raise e) ev i' ->
  outcome (bind m f) h i (Raise e) ev i'.
Proof. unfold outcome, bind. intros -> . reflexivity. Qed.

Lemma outcome_intro {A} (m : M A) h i r ev ev' i' :
  outcome m h i r ev i' -> ev = ev' -> m h i = mkOut r ev' i'.
Proof. intros H <-. exact H. Qed.

Lemma returns_ret {A} (a : A) h i : returns (ret a) h i a [] i.
Proof. reflexivity. Qed.

Lemma returns_print s h i : returns (print s) h i tt [EPrint s] i.
Proof. reflexivity. Qed.

Lemma returns_input p s h i : returns (input p) h (Typed s :: i) s [EInput p (Typed s)] i.
Proof. reflexivity. Qed.

Lemma returns_parted_call w op h i :
  backend_accepts w -> returns (parted_call w op) h i tt [EParted op] i.
Proof. intros Hb. unfold returns, parted_call. rewrite Hb. reflexivity. Qed.

Lemma returns_floordiv a b h i :
  b <> 0%Z -> returns (floordiv a b) h i (a / b)%Z [] i.
Proof.
  intros Hb. apply Z.eqb_neq in Hb. unfold returns, floordiv. rewrite Hb. reflexivity.
Qed.

Lemma completes_run_command w c h i :
  commands_succeed w -> completes (run_command w c) h i [ERun c] i.
Proof.
  intros Hs. destruct (Hs h c) as (out & err & E).
  exists (out, err). unfold returns. unfold_script. rewrite E. reflexivity.
Qed.

(** A condition that computes is replaced by its value. *)
Ltac decide_condition :=
  match goal with
  | |- context [if ?b then _ else _] =>
      let v := eval cbv in b in
      lazymatch v with
      | true => change b with true
      | false => change b with false
      end
  end.

Ltac returns_step :=
  cbv beta iota zeta;
  lazymatch goal with
  | |- returns (ret _) _ _ _ _ _ => apply returns_ret
  | |- returns (print _) _ _ _ _ _ => apply returns_print
  | |- returns (input _) _ _ _ _ _ => apply returns_input
  | |- returns (parted_call _ _) _ _ _ _ _ => apply returns_parted_call; assumption
  | |- returns (floordiv _ _) _ _ _ _ _ => apply returns_floordiv; assumption
  | |- returns (if _ then _ else _) _ _ _ _ _ => decide_condition
  | |- returns (bind _ _) _ _ _ _ _ =>
      first [ eapply returns_bind; [solve [repeat returns_step]|]
            | eapply returns_bind_completes; [solve [repeat returns_step]|intro] ]
  | |- completes (run_command _ _) _ _ _ _ => apply completes_run_command; assumption
  | |- completes (if _ then _ else _) _ _ _ _ => decide_condition
  | |- completes (bind _ _) _ _ _ _ =>
      eapply completes_bind; [solve [repeat returns_step]|intro]
  | |- completes _ _ _ _ _ => eapply completes_of_returns
  end.

Lemma safe_bind {A B} P E Q R (m : M A) (f : A -> M B) :
  safe P E Q m -> (forall a, Q a -> safe P E R (f a)) -> safe P E R (bind m f).
Proof.
  intros Hm Hf h i. unfold bind.
  destruct (Hm h i) as (Hev & Hraise & Hok).
  destruct (res (m h i)) as [a|e]; cbn [res emitted unread].
  - destruct (Hf a (Hok a eq_refl) (h ++ emitted (m h i))%list (unread (m h i)))
      as (Hev' & Hraise' & Hok').
    split; [apply Forall_app; split; assumption|]. split; assumption.
  - split; [exact Hev|]. split.
    + intros e' H. injection H as <-. apply Hraise. reflexivity.
    + discriminate.
Qed.

Lemma safe_ret {A} P E (a : A) : safe P E (eq a) (ret a).
Proof.
  intros h i. cbn. split; [constructor|]. split; [discriminate|congruence].
Qed.

Lemma safe_raise {A} P (E : exn -> Prop) (Q : A -> Prop) e : E e -> safe P E Q (raise e).
Proof.
  intros He h i. cbn. split; [constructor|]. split; [|discriminate].
  intros e' H. injection H as <-. exact He.
Qed.

Lemma safe_print P E s : P (EPrint s) -> safe P E (fun _ => True) (print s).
Proof.
  intros Hp h i. cbn. split; [repeat constructor; exact Hp|]. split; [discriminate|trivial].
Qed.

Lemma safe_read_line P (E : exn -> Prop) mk :
  (forall r, P (mk r)) -> E KeyboardInterrupt -> E EOFError ->
  safe P E (fun _ => True) (read_line mk).
Proof.
  intros Hp Hk He h i. unfold read_line.
  destruct i as [|[s| |] i]; cbn; (split; [repeat constructor; apply Hp|]);
    (split; [|trivial || discriminate]); intros e H; try discriminate H;
    injection H as <-; assumption.
Qed.

Lemma safe_run_command w P (E : exn -> Prop) c :
  P (ERun c) -> P (EPrint ("Error executing command: " ++ c)) ->
  (forall err, P (EPrint ("Output: " ++ err))) ->
  (forall rc err, E (CalledProcessError c rc err)) -> E KeyboardInterrupt ->
  safe P E (fun _ => True) (run_command w c).
Proof.
  intros Hrun Herr Hout Hc Hk h i. unfold_script.
  destruct (shell w h c) as [[|rc] out err|]; cbn -[String.append].
  - split; [repeat constructor; assumption|]. split; [discriminate|trivial].
  - split; [repeat constructor; solve [assumption | apply Hout]|]. split; [|discriminate].
    intros e H. injection H as <-. apply Hc.
  - split; [repeat constructor; assumption|]. split; [|discriminate].
    intros e H. injection H as <-. exact Hk.
Qed.

Lemma safe_check_output w P (E : exn -> Prop) c :
  P (ECheckOutput c) ->
  (forall rc err, E (CalledProcessError c rc err)) -> E KeyboardInterrupt ->
  safe P E (fun _ => True) (check_output w c).
Proof.
  intros Hrun Hc Hk h i. unfold check_output.
  destruct (shell w h c) as [[|rc] out err|]; cbn;
    (split; [repeat constructor; assumption|]); (split; [|trivial || discriminate]);
    intros e H; try discriminate H; injection H as <-; trivial.
Qed.

Lemma safe_write_file w P (E : exn -> Prop) path pieces :
  (forall content, P (EWriteFile path content)) -> E (OSError path) ->
  safe P E (fun _ => True) (write_file w path pieces).
Proof.
  intros Hp He h i. unfold write_file.
  destruct (open_ok w h path); cbn.
  - split; [repeat constructor; apply Hp|]. split; [discriminate|trivial].
  - split; [constructor|]. split; [|discriminate].
    intros e H. injection H as <-. exact He.
Qed.

Lemma safe_try_except {A} P E Q (m : M A) (handler : exn -> option (M A)) :
  safe P (fun e => match handler e with Some _ => True | None => E e end) Q m ->
  (forall e k, handler e = Some k -> safe P E Q k) ->
  safe P E Q (try_except m handler).
Proof.
  intros Hm Hk h i. unfold try_except.
  destruct (Hm h i) as (Hev & Hraise & Hok).
  destruct (res (m h i)) as [a|e] eqn:Er.
  - rewrite Er. split; [exact Hev|]. split; [discriminate|exact Hok].
  - specialize (Hraise e eq_refl).
    destruct (handler e) as [k|] eqn:Eh.
    + destruct (Hk e k Eh (h ++ emitted (m h i))%list (unread (m h i)))
        as (Hev' & Hraise' & Hok').
      cbn [res emitted unread].
      split; [apply Forall_app; split; assumption|]. split; assumption.
    + rewrite Er. split; [exact Hev|]. split; [|discriminate].
      intros e' H. injection H as <-. exact Hraise.
Qed.

Lemma safe_post {A} P E (Q Q' : A -> Prop) (m : M A) :
  safe P E Q m -> (forall a, Q a -> Q' a) -> safe P E Q' m.
Proof.
  intros Hm HQ h i. destruct (Hm h i) as (Hev & Hraise & Hok).
  split; [exact Hev|]. split; [exact Hraise|]. intros a Ha. apply HQ, Hok, Ha.
Qed.

(** Side conditions: a predicate that computes on the event, the
    exception or the value. *)
Ltac safe_side :=
  intros; cbn;
  try exact I; try reflexivity; try discriminate; try (split; reflexivity);
  try match goal with a : unit |- _ => destruct a; reflexivity end;
  try congruence.

Ltac safe_leaf L :=
  first [ apply L; safe_side
        | eapply safe_post; [apply L; safe_side | safe_side] ].

Ltac safe_step :=
  cbv beta iota zeta;
  lazymatch goal with
  | |- safe _ _ _ (bind _ _) =>
      first [ eapply safe_bind; [solve [repeat safe_step]|intros ? ?; subst]
            | eapply safe_bind with (Q := fun _ => True);
              [solve [repeat safe_step]|intros ? _] ]
  | |- safe _ _ _ (ret _) => safe_leaf safe_ret
  | |- safe _ _ _ (print _) => safe_leaf safe_print
  | |- safe _ _ _ (input _) => safe_leaf safe_read_line
  | |- safe _ _ _ (getpass _) => safe_leaf safe_read_line
  | |- safe _ _ _ (run_command _ _) => safe_leaf safe_run_command
  | |- safe _ _ _ (check_output _ _) => safe_leaf safe_check_output
  | |- safe _ _ _ (write_file _ _ _) => safe_leaf safe_write_file
  | |- safe _ _ _ (sys_exit _) => apply safe_raise; safe_side
  | |- safe _ _ _ (raise _) => apply safe_raise; safe_side
  | |- safe _ _ _ (try_except _ _) =>
      apply safe_try_except;
      [ | let e := fresh "e" in
          let k := fresh "k" in
          let Hk := fresh "Hk" in
          intros e k Hk; destruct e; cbn in Hk; try discriminate Hk;
          injection Hk as <- ]
  | |- safe _ _ _ (if ?b then _ else _) => first [decide_condition | destruct b]
  | |- safe _ _ _ (match ?s with EmptyString => _ | String _ _ => _ end) => destruct s
  | |- safe _ _ _ _ =>
      first [ eassumption | eapply safe_post; [eassumption | safe_side] ]
  end.

(** ** The partition plan *)

(** The sectors asked for each partition, as the arithmetic of
    [auto_partition_disk] gives them on a device. *)
Lemma auto_partition_disk_accepted_lengths w disk (uefi swap : bool) h i :
  backend_accepts w ->
  sectorSize (device w ("/dev/" ++ disk)) <> 0%Z ->
  let dev := device w ("/dev/" ++ disk) in
  let efi := (getLength dev * (512 * 1024 * 1024) / sectorSize dev)%Z in
  let start := if uefi then (1 + efi - 1 + 1)%Z else 1%Z in
  let swp := (getLength dev * (2 * 1024 * 1024 * 1024) / sectorSize dev)%Z in
  let start' := if swap then (start + swp - 1 + 1)%Z else start in
  exists ev,
    returns (auto_partition_disk w disk uefi swap) h i
      (numbered_paths disk (length (plan_roles uefi swap))) ev i
    /\ plan_lengths ev
       = ((if uefi then [("fat32", efi)] else [])
          ++ (if swap then [("swap", swp)] else [])
          ++ [("ext4", getLength dev - start' - 1)%Z])%list.
Proof.
  intros Hb Hs.
  unfold auto_partition_disk, new_geometry, new_partition, setFlag_boot, addPartition.
  destruct uefi, swap; eexists; (split; [repeat returns_step|]).
  all: cbn -[Z.mul Z.div Z.add Z.sub String.append]; reflexivity.
Qed.

(** What [auto_partition_disk] does when the backend accepts the plan. *)
Lemma auto_partition_disk_accepted w disk uefi swap h i :
  backend_accepts w ->
  sectorSize (device w ("/dev/" ++ disk)) <> 0%Z ->
  let o := auto_partition_disk w disk uefi swap h i in
  map role_of (planned (emitted o)) = map Some (plan_roles uefi swap)
  /\ res o = Ok (numbered_paths disk (length (plan_roles uefi swap)))
  /\ unread o = i.
Proof.
  intros Hb Hs.
  destruct (auto_partition_disk_accepted_lengths w disk uefi swap h i Hb Hs)
    as (ev & Hrun & Hlen).
  unfold returns in Hrun. cbv zeta. rewrite Hrun. cbn [res emitted unread].
  repeat split.
  unfold plan_lengths in Hlen.
  assert (Hfs : map fs_type (planned ev)
                = map (fun r => match r with EFI => "fat32" | SWAP => "swap" | ROOT => "ext4" end)
                    (plan_roles uefi swap)).
  { change (map fs_type (planned ev))
      with (map (fun p => fst (fs_type p, g_length (geometry p))) (planned ev)).
    rewrite <- (map_map (fun p => (fs_type p, g_length (geometry p))) fst), Hlen.
    destruct uefi, swap; reflexivity. }
  clear Hlen Hrun. revert Hfs. generalize (plan_roles uefi swap) as rs.
  induction (planned ev) as [|p ps IH]; intros [|r rs] Hfs; try discriminate Hfs.
  - reflexivity.
  - cbn [map] in *. injection Hfs as Hp Hps. rewrite (IH rs Hps).
    f_equal. unfold role_of. rewrite Hp. destruct r; reflexivity.
Qed.

(** C1.  For every firmware mode and swap flag, when the backend accepts the
    requests, the partitions handed to [addPartition] are, in order, an EFI
    partition iff the firmware is UEFI, a swap partition iff swap was asked
    for, and one root partition, last; the returned list holds one path
    [/dev/<disk><index>] per planned partition, in the order of the plan. *)
Theorem auto_partition_plan_and_paths w disk uefi swap h i :
  backend_accepts w ->
  sectorSize (device w ("/dev/" ++ disk)) <> 0%Z ->
  let o := auto_partition_disk w disk uefi swap h i in
  let plan := planned (emitted o) in
  map role_of plan
    = map Some ((if uefi then [EFI] else []) ++ (if swap then [SWAP] else []) ++ [ROOT])%list
  /\ res o = Ok (map (fun k => "/dev/" ++ disk ++ Py.str_N (N.of_nat k))
                     (seq 1 (length plan))).
Proof.
  intros Hb Hs o plan.
  destruct (auto_partition_disk_accepted w disk uefi swap h i Hb Hs) as (Hplan & Hres & _).
  fold o in Hplan, Hres. fold plan in Hplan.
  split; [exact Hplan|].
  rewrite Hres. unfold numbered_paths.
  replace (length plan) with (length (plan_roles uefi swap)); [reflexivity|].
  rewrite <- (length_map Some), <- Hplan, length_map. reflexivity.
Qed.

Lemma auto_partition_plan_and_paths_witness :
  let w := healthy_world 512 2097152 silent in
  map role_of (planned (emitted (auto_partition_disk w "sda" true true [] [])))
    = [Some EFI; Some SWAP; Some ROOT]
  /\ res (auto_partition_disk w "sda" true true [] [])
     = Ok ["/dev/sda1"; "/dev/sda2"; "/dev/sda3"].
Proof.
  exact (auto_partition_plan_and_paths (healthy_world 512 2097152 silent)
           "sda" true true [] []
           (healthy_backend_accepts 512 2097152 silent)
           ltac:(discriminate)).
Defined.

(** ** Sequences of commands *)

Lemma commands_app t1 t2 : commands (t1 ++ t2) = (commands t1 ++ commands t2)%list.
Proof.
  induction t1 as [|e t1 IH]; [reflexivity|].
  destruct e; cbn [app commands]; rewrite IH; reflexivity.
Qed.

Lemma issues_bind w {A B} (m : M A) (f : A -> M B) Q R cs1 cs2 :
  issues w m Q cs1 ->
  (forall a, Q a -> issues w (f a) R cs2) ->
  issues w (bind m f) R (cs1 ++ cs2)%list.
Proof.
  intros Hm Hf h i. unfold bind.
  destruct (Hm h i) as (Hpre & Hok & Hsucc).
  destruct (res (m h i)) as [a|e] eqn:E; cbn [res emitted unread].
  - destruct (Hok a eq_refl) as [HQ Hcs].
    destruct (Hf a HQ (h ++ emitted (m h i))%list (unread (m h i))) as (Hpre' & Hok' & Hsucc').
    rewrite commands_app, Hcs. repeat split.
    + destruct Hpre' as [rest ->]. exists rest. rewrite app_assoc. reflexivity.
    + apply (Hok' _ H).
    + f_equal. apply (Hok' _ H).
    + exact Hsucc'.
  - repeat split.
    + destruct Hpre as [rest ->]. exists (rest ++ cs2)%list. rewrite app_assoc. reflexivity.
    + discriminate H.
    + discriminate H.
    + intros Hs. destruct (Hsucc Hs) as [a Ha]. discriminate Ha.
Qed.

Lemma issues_ret w {A} (a : A) : issues w (ret a) (eq a) [].
Proof.
  intros h i. cbn. repeat split.
  - exists []. reflexivity.
  - congruence.
  - intros _. exists a. reflexivity.
Qed.

Lemma issues_print w s : issues w (print s) (fun _ => True) [].
Proof.
  intros h i. cbn. repeat split.
  - exists []. reflexivity.
  - intros _. exists tt. reflexivity.
Qed.

Lemma issues_run_command w c : issues w (run_command w c) (fun _ => True) [c].
Proof.
  intros h i. unfold_script.
  destruct (shell w h c) as [[|rc] out err|] eqn:E; cbn; repeat split.
  all: try (exists []; reflexivity).
  all: try discriminate.
  - intros _. eexists. reflexivity.
  - intros Hs. destruct (Hs h c) as (o & e & E'). congruence.
  - intros Hs. destruct (Hs h c) as (o & e & E'). congruence.
Qed.

Lemma issues_index_last w (l : list string) :
  l <> [] -> issues w (index_last l) (eq (last l EmptyString)) [].
Proof.
  intros Hl h i. unfold index_last.
  destruct (exists_last Hl) as (front & x & ->).
  rewrite rev_app_distr, last_last. apply issues_ret.
Qed.

Lemma issues_index_first w (l : list string) :
  l <> [] -> issues w (index_first l) (eq (hd EmptyString l)) [].
Proof.
  intros Hl. destruct l as [|x l]; [contradiction|]. apply issues_ret.
Qed.

Lemma issues_commands w {A} (m : M A) Q cs cs' :
  issues w m Q cs -> cs = cs' -> issues w m Q cs'.
Proof. intros H <-. exact H. Qed.

Ltac issues_step :=
  cbv beta iota;
  lazymatch goal with
  | |- issues _ (bind _ _) _ _ => eapply issues_bind; [|intros ? ?]
  | |- issues _ (ret _) _ _ => apply issues_ret
  | |- issues _ (print _) _ _ => apply issues_print
  | |- issues _ (run_command _ _) _ _ => apply issues_run_command
  end.

(** What the definition of [issues] gives for one run. *)
Lemma issues_run w {A} (m : M A) Q cs h i :
  issues w m Q cs ->
  let got := commands (emitted (m h i)) in
  initial_part got cs /\ (commands_succeed w -> got = cs).
Proof.
  intros H. destruct (H h i) as (Hpre & Hok & Hsucc). split; [exact Hpre|].
  intros Hs. destruct (Hsucc Hs) as [a Ha]. apply (Hok a Ha).
Qed.

(** The first command of a sequence is issued even when it fails. *)
Lemma run_command_first w {B} c (f : string * string -> M B) h i :
  hd_error (commands (emitted (bind (run_command w c) f h i))) = Some c.
Proof.
  unfold bind. unfold_script.
  destruct (shell w h c) as [[|rc] out err|]; reflexivity.
Qed.

(** ** Formatting *)

Lemma format_auto_paths w uefi swap disk h i :
  let paths := numbered_paths disk (length (plan_roles uefi swap)) in
  let cs := commands (emitted (format_partitions w paths uefi h i)) in
  initial_part cs (format_plan (plan_roles uefi swap) paths)
  /\ (commands_succeed w -> cs = format_plan (plan_roles uefi swap) paths).
Proof.
  cbv zeta. eapply issues_run.
  unfold format_partitions.
  destruct uefi, swap;
    (eapply issues_commands;
     [ cbn -[bind run_command print ret String.append];
       unfold format_one; cbn -[bind run_command print ret String.append];
       repeat issues_step
     | reflexivity ]).
Qed.

(** C2.  For each firmware mode and swap flag, formatting the paths returned
    by the automatic planner issues the FAT32 format at the position of the
    EFI partition only, the swap format and activation at the position of
    the swap partition only, and the EXT4 format at the remaining position;
    a failing command stops the sequence, it never changes it. *)
Theorem format_follows_auto_plan w disk uefi swap h i h' i' :
  backend_accepts w ->
  sectorSize (device w ("/dev/" ++ disk)) <> 0%Z ->
  let o := auto_partition_disk w disk uefi swap h i in
  exists rs paths,
    map role_of (planned (emitted o)) = map Some rs
    /\ res o = Ok paths
    /\ let cs := commands (emitted (format_partitions w paths uefi h' i')) in
       initial_part cs (format_plan rs paths)
       /\ (commands_succeed w -> cs = format_plan rs paths).
Proof.
  intros Hb Hs o.
  destruct (auto_partition_disk_accepted w disk uefi swap h i Hb Hs) as (Hplan & Hres & _).
  exists (plan_roles uefi swap), (numbered_paths disk (length (plan_roles uefi swap))).
  split; [exact Hplan|]. split; [exact Hres|].
  apply format_auto_paths.
Qed.

Lemma format_follows_auto_plan_witness :
  let w := healthy_world 512 2097152 silent in
  exists rs paths,
    map role_of (planned (emitted (auto_partition_disk w "sda" true true [] []))) = map Some rs
    /\ res (auto_partition_disk w "sda" true true [] []) = Ok paths
    /\ (initial_part (commands (emitted (format_partitions w paths true [] [])))
          (format_plan rs paths)
        /\ (commands_succeed w ->
            commands (emitted (format_partitions w paths true [] [])) = format_plan rs paths)).
Proof.
  exact (format_follows_auto_plan (healthy_world 512 2097152 silent)
           "sda" true true [] [] [] []
           (healthy_backend_accepts 512 2097152 silent)
           ltac:(discriminate)).
Defined.

(** The four cases, spelled out on a machine where every command succeeds. *)
Example format_uefi_swap :
  commands (emitted (format_partitions (healthy_world 512 2097152 silent)
                       ["/dev/sda1"; "/dev/sda2"; "/dev/sda3"] true [] []))
  = ["mkfs.fat -F32 /dev/sda1"; "mkswap /dev/sda2"; "swapon /dev/sda2"; "mkfs.ext4 /dev/sda3"].
Proof. reflexivity. Qed.

Example format_uefi_noswap :
  commands (emitted (format_partitions (healthy_world 512 2097152 silent)
                       ["/dev/sda1"; "/dev/sda2"] true [] []))
  = ["mkfs.fat -F32 /dev/sda1"; "mkfs.ext4 /dev/sda2"].
Proof. reflexivity. Qed.

Example format_bios_swap :
  commands (emitted (format_partitions (healthy_world 512 2097152 silent)
                       ["/dev/sda1"; "/dev/sda2"] false [] []))
  = ["mkswap /dev/sda1"; "swapon /dev/sda1"; "mkfs.ext4 /dev/sda2"].
Proof. reflexivity. Qed.

Example format_bios_noswap :
  commands (emitted (format_partitions (healthy_world 512 2097152 silent)
                       ["/dev/sda1"] false [] []))
  = ["mkfs.ext4 /dev/sda1"].
Proof. reflexivity. Qed.

(** C10.  Under BIOS, formatting any list of two paths makes the first one
    swap (format, then activation) and the second one EXT4, whatever the
    paths stand for; and the manual route returns the operator's line split
    on white space, with no check of how many paths it holds or in which
    order. *)
Theorem format_bios_two_paths w a b h i :
  let cs := commands (emitted (format_partitions w [a; b] false h i)) in
  initial_part cs ["mkswap " ++ a; "swapon " ++ a; "mkfs.ext4 " ++ b]
  /\ (commands_succeed w ->
      cs = ["mkswap " ++ a; "swapon " ++ a; "mkfs.ext4 " ++ b])
  /\ (forall disk line i',
        commands_succeed w ->
        res (manual_partitioning w disk h (Typed line :: i'))
        = Ok (Py.split (Py.strip line))).
Proof.
  cbv zeta.
  assert (Hf : issues w (format_partitions w [a; b] false) (fun _ => True)
                 ["mkswap " ++ a; "swapon " ++ a; "mkfs.ext4 " ++ b]).
  { eapply issues_commands.
    - unfold format_partitions, format_loop, format_one.
      cbn -[bind run_command print ret String.append].
      repeat issues_step.
    - reflexivity. }
  destruct (issues_run w _ _ _ h i Hf) as [Hpre Hall].
  split; [exact Hpre|]. split; [exact Hall|].
  intros disk line i' Hs.
  assert (H : exists ev, returns (manual_partitioning w disk) h (Typed line :: i')
                           (Py.split (Py.strip line)) ev i').
  { eexists. unfold manual_partitioning. repeat returns_step. }
  destruct H as [ev H]. unfold returns in H. rewrite H. reflexivity.
Qed.

(** ** Mounting *)

Lemma index_last_nonempty (l : list string) h i :
  l <> [] -> index_last l h i = ret (last l EmptyString) h i.
Proof.
  intros Hl. unfold index_last.
  destruct (exists_last Hl) as (front & x & ->).
  rewrite rev_app_distr, last_last. reflexivity.
Qed.

(** C6.  For every non-empty list of paths and every firmware mode, the
    first command of [mount_partitions] mounts the last path on the target
    root; under UEFI the only commands that may follow are the creation of
    the boot directory and the mount of the first path below it, in that
    order, and they do follow when the commands succeed; under BIOS nothing
    else is mounted. *)
Theorem mount_root_first (w : World) (partitions : list string) (uefi : bool) h i :
  partitions <> [] ->
  let cs := commands (emitted (mount_partitions w partitions uefi h i)) in
  hd_error cs = Some ("mount " ++ last partitions EmptyString ++ " /mnt")
  /\ initial_part cs (mount_plan partitions uefi)
  /\ (commands_succeed w -> cs = mount_plan partitions uefi)
  /\ (uefi = false -> cs = ["mount " ++ last partitions EmptyString ++ " /mnt"]).
Proof.
  intros Hl. cbv zeta.
  assert (Hm : issues w (mount_partitions w partitions uefi) (fun _ => True)
                 (mount_plan partitions uefi)).
  { unfold mount_partitions, mount_plan.
    destruct uefi;
      (eapply issues_commands;
       [ eapply issues_bind; [apply issues_print|intros _ _];
         eapply issues_bind; [apply (issues_index_last w _ Hl)|intros root <-];
         eapply issues_bind; [apply issues_run_command|intros _ _];
         eapply issues_bind; [|intros _ _; apply issues_print];
         try (eapply issues_bind; [apply (issues_index_first w _ Hl)|intros efi <-]);
         repeat issues_step
       | reflexivity ]). }
  destruct (issues_run w _ _ _ h i Hm) as [Hpre Hall].
  assert (Hhd : hd_error (commands (emitted (mount_partitions w partitions uefi h i)))
                = Some ("mount " ++ last partitions EmptyString ++ " /mnt")).
  { unfold mount_partitions.
    unfold bind at 1. cbn [print emit res emitted unread app commands].
    unfold bind at 1. rewrite (index_last_nonempty _ _ _ Hl).
    cbn [ret res emitted unread app].
    apply run_command_first. }
  split; [exact Hhd|]. split; [exact Hpre|]. split; [exact Hall|].
  intros ->. unfold mount_plan in Hpre. destruct Hpre as [rest Hrest].
  destruct (commands (emitted (mount_partitions w partitions false h i))) as [|c [|c' cs]];
    cbn [hd_error app] in Hhd, Hrest.
  - discriminate Hhd.
  - injection Hhd as ->. reflexivity.
  - injection Hrest as _ Hnil. discriminate Hnil.
Qed.

Lemma mount_root_first_witness :
  let w := healthy_world 512 2097152 silent in
  let cs := commands (emitted (mount_partitions w ["/dev/sda1"; "/dev/sda2"; "/dev/sda3"] true [] [])) in
  hd_error cs = Some "mount /dev/sda3 /mnt"
  /\ initial_part cs ["mount /dev/sda3 /mnt"; "mkdir -p /mnt/boot"; "mount /dev/sda1 /mnt/boot"]
  /\ (commands_succeed w ->
      cs = ["mount /dev/sda3 /mnt"; "mkdir -p /mnt/boot"; "mount /dev/sda1 /mnt/boot"])
  /\ (true = false -> cs = ["mount /dev/sda3 /mnt"]).
Proof.
  exact (mount_root_first (healthy_world 512 2097152 silent)
           ["/dev/sda1"; "/dev/sda2"; "/dev/sda3"] true [] []
           ltac:(discriminate)).
Defined.

Example mount_bios_two_paths :
  commands (emitted (mount_partitions (healthy_world 512 2097152 silent)
                       ["/dev/sda1"; "/dev/sda2"] false [] []))
  = ["mount /dev/sda2 /mnt"].
Proof. reflexivity. Qed.

(** An empty list has no last element: [partitions[-1]] raises before any
    command is run. *)
Example mount_empty w uefi h i :
  res (mount_partitions w [] uefi h i) = Raise (IndexError "list index out of range")
  /\ commands (emitted (mount_partitions w [] uefi h i)) = [].
Proof. split; reflexivity. Qed.

(** ** Sizes of the planned partitions *)

(** The lengths the planner asks for, on any device and backend that
    accepts them: the device length times the size in bytes, divided by the
    sector size. *)
Lemma auto_partition_lengths w disk h i :
  backend_accepts w ->
  sectorSize (device w ("/dev/" ++ disk)) <> 0%Z ->
  let dev := device w ("/dev/" ++ disk) in
  let efi := (getLength dev * (512 * 1024 * 1024) / sectorSize dev)%Z in
  let swap := (getLength dev * (2 * 1024 * 1024 * 1024) / sectorSize dev)%Z in
  plan_lengths (emitted (auto_partition_disk w disk true true h i))
  = [("fat32", efi); ("swap", swap);
     ("ext4", getLength dev - (1 + efi - 1 + 1 + swap - 1 + 1) - 1)%Z].
Proof.
  intros Hb Hs.
  destruct (auto_partition_disk_accepted_lengths w disk true true h i Hb Hs)
    as (ev & Hrun & Hlen).
  unfold returns in Hrun. cbv zeta. rewrite Hrun. exact Hlen.
Qed.

(** C4, at a disk of 1 GiB and at a disk of 2 GiB, both with sectors of 512
    bytes: 512 MiB are 1048576 sectors and 2 GiB are 4194304 sectors, but
    the planner asks for an EFI partition of 2097152 * 1048576 sectors and a
    swap partition of 2097152 * 4194304 sectors on the first disk, and for
    twice as much on the second. *)
Theorem auto_partition_lengths_scale_with_disk :
  plan_lengths (emitted (auto_partition_disk (healthy_world 512 2097152 silent)
                           "sda" true true [] []))
  = [("fat32", 2199023255552); ("swap", 8796093022208); ("ext4", -10995114180610)]%Z
  /\ plan_lengths (emitted (auto_partition_disk (healthy_world 512 4194304 silent)
                              "sda" true true [] []))
     = [("fat32", 4398046511104); ("swap", 17592186044416); ("ext4", -21990228361218)]%Z
  /\ (512 * 1024 * 1024 / 512 = 1048576)%Z
  /\ (2 * 1024 * 1024 * 1024 / 512 = 4194304)%Z.
Proof. repeat split; vm_compute; reflexivity. Qed.

(** ** The loader entry of systemd-boot *)

(** The only partition whose UUID the installer ever asks for is the
    second one of the disk, whatever the plan was. *)
Lemma install_bootloader_queries_partition_2 w depth disk uefi h i c :
  In (ECheckOutput c) (emitted (install_bootloader w depth disk uefi h i)) ->
  c = "blkid -s UUID -o value /dev/" ++ disk ++ "2".
Proof.
  assert (H : safe (fun e => match e with
                             | ECheckOutput c =>
                                 c = "blkid -s UUID -o value /dev/" ++ disk ++ "2"
                             | _ => True
                             end)
                (fun _ => True) (fun _ => True)
                (install_bootloader w depth disk uefi)).
  { induction depth as [|depth IH]; [apply safe_raise; exact I|].
    cbn [install_bootloader]. destruct uefi; repeat safe_step. }
  intros Hin. destruct (H h i) as (Hev & _). rewrite Forall_forall in Hev.
  exact (Hev _ Hin).
Qed.

(** C5, at UEFI with swap on [sda] and the choice of systemd-boot: the plan
    is EFI, swap, root, so the root partition is [/dev/sda3]; the entry
    written names the UUID of [/dev/sda2], the swap partition. *)
Theorem systemd_boot_entry_names_swap_uuid :
  let w := healthy_world 512 2097152 blkid_efi_swap_root in
  let plan := auto_partition_disk w "sda" true true [] [] in
  let boot := install_bootloader w (recursion_limit w) "sda" true [] [Typed "2"] in
  map role_of (planned (emitted plan)) = [Some EFI; Some SWAP; Some ROOT]
  /\ res plan = Ok ["/dev/sda1"; "/dev/sda2"; "/dev/sda3"]
  /\ file_content (emitted boot) "/mnt/boot/loader/entries/arch.conf"
     = Some ("title Arch Linux" ++ Py.nl ++
             "linux /vmlinuz-linux" ++ Py.nl ++
             "initrd /initramfs-linux.img" ++ Py.nl ++
             "options root=UUID=aaaaaaaa-5a4b-4c3d-8e2f-000000000002 rw" ++ Py.nl)
  /\ Py.strip (blkid_efi_swap_root "blkid -s UUID -o value /dev/sda3")
     = "bbbbbbbb-5a4b-4c3d-8e2f-000000000003".
Proof. repeat split; vm_compute; reflexivity. Qed.

(** ** The bootloader installer *)

Lemma retries_app t1 t2 : retries (t1 ++ t2) = retries t1 + retries t2.
Proof.
  induction t1 as [|e t1 IH]; [reflexivity|].
  destruct e; cbn -[String.eqb]; rewrite IH; lia.
Qed.

Lemma returns_events {A} (m : M A) h i a ev ev' i' :
  returns m h i a ev i' -> ev = ev' -> returns m h i a ev' i'.
Proof. intros H <-. exact H. Qed.

Lemma install_bootloader_retry w depth disk h i ev i' :
  returns (install_bootloader w depth disk true) (h ++ retry_events "4")%list i tt ev i' ->
  returns (install_bootloader w (S depth) disk true) h (Typed "4" :: i) tt
    (retry_events "4" ++ ev ++ [EPrint "Bootloader installed."])%list i'.
Proof.
  intros H. cbn [install_bootloader].
  eapply returns_events.
  - repeat returns_step.
    eapply returns_bind; [|apply returns_print].
    repeat returns_step.
    rewrite <- app_assoc. exact H.
  - rewrite <- !app_assoc. reflexivity.
Qed.

Lemma install_grub_uefi w depth disk h i :
  commands_succeed w ->
  exists ev,
    returns (install_bootloader w (S depth) disk true) h (Typed "1" :: i) tt ev i
    /\ retries ev = 0.
Proof.
  intros Hs. eexists. split.
  - cbn [install_bootloader]. repeat returns_step.
  - reflexivity.
Qed.

(** The operator decides how often the installer calls itself: [n] answers
    outside the menu make [n] retries before the choice of GRUB is taken. *)
Lemma install_bootloader_retries_as_often_as_asked w disk n :
  commands_succeed w ->
  forall h i,
  exists ev,
    returns (install_bootloader w (S n) disk true) h
      (repeat (Typed "4") n ++ Typed "1" :: i)%list tt ev i
    /\ retries ev = n.
Proof.
  intros Hs. induction n as [|n IH]; intros h i.
  - apply install_grub_uefi, Hs.
  - destruct (IH (h ++ retry_events "4")%list i) as (ev & Hrun & Hn).
    eexists. split.
    + cbn [repeat app]. apply install_bootloader_retry. exact Hrun.
    + rewrite !retries_app, Hn.
      change (retries (retry_events "4")) with 1.
      change (retries [EPrint "Bootloader installed."]) with 0. lia.
Qed.

(** Under BIOS the choice is forced to GRUB: the last branch is never
    taken, whatever the operator would type. *)
Lemma install_bootloader_bios_never_retries w depth disk h i :
  let o := install_bootloader w depth disk false h i in
  retries (emitted o) = 0 /\ bootloader_prompts (emitted o) = 0.
Proof.
  assert (H : safe (fun e => retries [e] = 0 /\ bootloader_prompts [e] = 0)
                (fun _ => True) (fun _ => True)
                (install_bootloader w depth disk false)).
  { destruct depth as [|depth]; [apply safe_raise; exact I|].
    cbn [install_bootloader]. repeat safe_step. }
  destruct (H h i) as (Hev & _). cbv zeta.
  induction Hev as [|e t [He1 He2] _ [IH1 IH2]]; [split; reflexivity|].
  change (e :: t) with ([e] ++ t)%list.
  rewrite retries_app, He1, IH1. split; [reflexivity|].
  destruct e; cbn in *; try assumption. rewrite IH2. lia.
Qed.

(** C3, at UEFI with the answers 4, 9 and 2: the installer does not fall
    back to GRUB after the first answer; it asks again, retries a second
    time after the second answer, and then installs systemd-boot.  With a
    thousand answers outside the menu it calls itself until the interpreter
    refuses another frame. *)
Theorem install_bootloader_retry_asks_again :
  let w := healthy_world 512 2097152 silent in
  let o := install_bootloader w (recursion_limit w) "sda" true []
             [Typed "4"; Typed "9"; Typed "2"] in
  let o' := install_bootloader w (recursion_limit w) "sda" true []
              (repeat (Typed "4") 1000) in
  res o = Ok tt
  /\ retries (emitted o) = 2
  /\ bootloader_prompts (emitted o) = 3
  /\ commands (emitted o)
     = [ chroot_cmd "pacman -S --noconfirm efibootmgr";
         chroot_cmd "bootctl --path=/boot install";
         "blkid -s UUID -o value /dev/sda2" ]
  /\ res o' = Raise RecursionError
  /\ retries (emitted o') = 1000.
Proof. repeat split; vm_compute; reflexivity. Qed.

(** ** The password and the printed output *)

(** A command that exits with a non-zero status is printed in full. *)
Lemma run_command_failure_prints_command w c h i rc out err :
  shell w h c = Exited (N.pos rc) out err ->
  run_command w c h i
  = mkOut (Raise (CalledProcessError c (N.pos rc) err))
      [ERun c; EPrint ("Error executing command: " ++ c); EPrint ("Output: " ++ err)] i.
Proof.
  intros E. unfold_script. rewrite E. cbn -[String.append]. reflexivity.
Qed.

(** C8, at the password [correct horse] on a machine where [chpasswd]
    fails: the diagnostic of [run_command] prints the command, and the
    command holds the password. *)
Theorem configure_system_prints_password :
  let o := configure_system chpasswd_fails "sda" true "arch" "alice" "correct horse" [] [] in
  printed (emitted o)
  = [ "Configuring system...";
      "Error executing command: arch-chroot /mnt /bin/bash -c 'echo 'root:correct horse' | chpasswd'";
      "Output: chpasswd: cannot lock /etc/passwd; try again later." ]
  /\ leaks "correct horse" (emitted o) = true
  /\ res o = Raise (CalledProcessError
                      "arch-chroot /mnt /bin/bash -c 'echo 'root:correct horse' | chpasswd'"
                      1 "chpasswd: cannot lock /etc/passwd; try again later.").
Proof. repeat split; vm_compute; reflexivity. Qed.

(** On a machine where every command succeeds the password is not printed. *)
Example configure_system_quiet_when_commands_succeed :
  leaks "correct horse"
    (emitted (configure_system (healthy_world 512 2097152 silent)
                "sda" true "arch" "alice" "correct horse" [] [Typed "1"])) = false.
Proof. vm_compute; reflexivity. Qed.

(** ** Disk selection *)

(** The network step runs ping, dhcpcd and iwctl only, never asks for the
    disk, and leaves the program with status 1 when it leaves it. *)
Lemma configure_network_events w h i :
  let o := configure_network w h i in
  Forall (fun e => untouched e && negb (asks_disk e) = true) (emitted o)
  /\ (forall c, res o = Raise (SystemExit c) -> c = 1%Z).
Proof.
  assert (H : safe (fun e => untouched e && negb (asks_disk e) = true)
                (fun e => forall c, e = SystemExit c -> c = 1%Z) (fun _ => True)
                (configure_network w)).
  { unfold configure_network, check_internet. repeat safe_step. }
  destruct (H h i) as (Hev & Hraise & _). split; [exact Hev|].
  intros c Hc. exact (Hraise _ Hc c eq_refl).
Qed.

(** [main] never gets past the disk selection. *)
Lemma main_stops_at_disk_selection w h i :
  let o := configure_network w (h ++ banner w)%list i in
  main w h i
  = match res o with
    | Ok _ =>
        mkOut (Raise (after_disk_prompt (next_reply (unread o))))
          (banner w ++ emitted o ++ disk_listing
             ++ [EInput disk_prompt (next_reply (unread o))])
          (tl (unread o))
    | Raise e => mkOut (Raise e) (banner w ++ emitted o) (unread o)
    end.
Proof.
  cbv zeta.
  destruct (configure_network w (h ++ banner w)%list i) as [r ev un] eqn:Hcn.
  cbn [res emitted unread]. unfold banner in Hcn.
  unfold main.
  destruct r as [[]|e]; [destruct un as [|[line| |] un]|].
  all: eapply outcome_intro;
    [ eapply outcome_bind_ok; [apply returns_print|];
      eapply outcome_bind_ok; [apply returns_print|];
      eapply outcome_bind_ok; [apply returns_ret|]; cbv beta;
      eapply outcome_bind_ok; [apply returns_print|]
    | ].
  all: try (eapply outcome_bind_ok;
            [unfold returns; rewrite <- !app_assoc; cbn [app]; exact Hcn|];
            eapply outcome_bind_ok; [unfold list_disks; repeat returns_step|]; cbv beta;
            eapply outcome_bind_ok; [apply returns_print|]).
  all: try (eapply outcome_bind_ok; [apply returns_input|]).
  all: try (eapply outcome_bind_raise; first
              [ reflexivity
              | unfold outcome; rewrite <- !app_assoc; cbn [app]; exact Hcn ]).
  all: cbn; rewrite ?app_nil_r; reflexivity.
Qed.

Lemma untouched_of_network (t : list event) :
  Forall (fun e => untouched e && negb (asks_disk e) = true) t ->
  Forall (fun e => untouched e = true) t
  /\ forall r, ~ In (EInput disk_prompt r) t.
Proof.
  intros Ht. split.
  - eapply Forall_impl; [|exact Ht].
    intros e He. apply andb_true_iff in He. tauto.
  - intros r Hin. rewrite Forall_forall in Ht.
    specialize (Ht _ Hin). apply andb_true_iff in Ht.
    destruct Ht as [_ Ht]. vm_compute in Ht. discriminate Ht.
Qed.

(** Every run of the program: status 1, the disk untouched, and when the
    operator answered the disk prompt, that answer and the report of the
    [TypeError] are the last two events. *)
Lemma run_stops_at_disk_selection w replies :
  let o := run w replies in
  exit_code (res o) = 1%Z
  /\ Forall (fun e => untouched e = true) (emitted o)
  /\ (forall typed,
        In (EInput disk_prompt (Typed typed)) (emitted o) ->
        exists front,
          emitted o
          = (front ++ [EInput disk_prompt (Typed typed);
                       EPrint ("An error occurred: " ++ none_not_iterable)])%list).
Proof.
  unfold run, script.
  destruct (geteuid w =? 0)%Z; cbn [negb].
  2: { cbn. repeat split.
       - repeat constructor.
       - intros typed [H|[]]; discriminate H. }
  unfold try_except. rewrite main_stops_at_disk_selection. cbv zeta.
  destruct (configure_network_events w ([] ++ banner w)%list replies) as [Hev Hexit].
  apply untouched_of_network in Hev. destruct Hev as [Hun Hask].
  assert (Hb : Forall (fun e => untouched e = true) (banner w))
    by (unfold banner; destruct (efi_exists w); repeat constructor).
  assert (Hbn : forall r, ~ In (EInput disk_prompt r) (banner w))
    by (intros r [H|[H|[H|[]]]]; discriminate H).
  destruct (configure_network w _ replies) as [[[]|e] ev un];
    cbn [res emitted unread] in *.
  - destruct un as [|[line| |] un]; cbn -[banner String.append]; repeat split.
    all: try (rewrite !Forall_app; repeat split; try assumption; repeat constructor).
    all: intros typed Hin; repeat rewrite in_app_iff in Hin; cbn -[banner] in Hin.
    all: repeat match goal with
           | H : _ \/ _ |- _ => destruct H
           | H : In _ ?l, Hn : forall r, ~ In (EInput disk_prompt r) ?l |- _ =>
               apply Hn in H; contradiction
           | H : EPrint _ = EInput _ _ |- _ => discriminate H
           | H : EInput _ _ = EInput _ (Typed _) |- _ => inversion H; clear H; subst
           | H : False |- _ => contradiction
           end.
    exists (banner w ++ ev ++ disk_listing)%list.
    repeat rewrite <- app_assoc. reflexivity.
  - destruct e; cbn -[banner String.append] in *; repeat split;
      try reflexivity; try (apply Hexit; reflexivity).
    all: try (rewrite ?Forall_app; repeat split; try assumption; repeat constructor).
    all: intros typed Hin; repeat rewrite in_app_iff in Hin; cbn -[banner] in Hin.
    all: repeat match goal with
           | H : _ \/ _ |- _ => destruct H
           | H : In _ ?l, Hn : forall r, ~ In (EInput disk_prompt r) ?l |- _ =>
               apply Hn in H; contradiction
           | H : EPrint _ = EInput _ _ |- _ => discriminate H
           | H : False |- _ => contradiction
           end.
Qed.

Lemma untouched_parts (e : event) :
  untouched e = true ->
  is_partitioning e = false /\ is_formatting e = false /\ is_mounting e = false
  /\ says_invalid_disk e = false.
Proof.
  unfold untouched. intros H. apply negb_true_iff in H.
  repeat (apply orb_false_iff in H; destruct H as [H ?]).
  tauto.
Qed.

(** C7.  For every disk id the operator types that is not among the
    detected disks, the program ends with exit code 1 and has issued no
    partitioning request up to then. *)
Theorem invalid_disk_exits_before_partitioning w replies typed :
  In (EInput disk_prompt (Typed typed)) (emitted (run w replies)) ->
  (forall h i disks,
     res (list_disks h i) = Ok disks -> ~ detected disks (Py.strip typed)) ->
  exit_code (res (run w replies)) = 1%Z
  /\ Forall (fun e => is_partitioning e = false) (emitted (run w replies)).
Proof.
  intros _ _.
  destruct (run_stops_at_disk_selection w replies) as (Hcode & Hun & _).
  split; [exact Hcode|].
  eapply Forall_impl; [|exact Hun].
  intros e He. apply untouched_parts in He. tauto.
Qed.

Lemma invalid_disk_exits_before_partitioning_witness :
  let o := run (healthy_world 512 2097152 silent) [Typed "sdz"] in
  exit_code (res o) = 1%Z
  /\ Forall (fun e => is_partitioning e = false) (emitted o).
Proof.
  apply (invalid_disk_exits_before_partitioning
           (healthy_world 512 2097152 silent) [Typed "sdz"] "sdz").
  - vm_compute. tauto.
  - intros h i disks H. cbn in H. inversion H. cbn. tauto.
Defined.

(** C9.  Disk detection returns [None] and never a list; so in every run,
    whatever the operator types at the disk prompt, the program ends with
    exit code 1 before any partitioning, formatting or mounting, the line
    [Invalid disk selected.] is never printed, and a run in which the
    operator answered the disk prompt ends with that answer followed by
    the report of the [TypeError] of the membership test. *)
Theorem list_disks_returns_none w replies :
  (forall h i, res (list_disks h i) = Ok None)
  /\ exit_code (res (run w replies)) = 1%Z
  /\ Forall (fun e => is_partitioning e = false /\ is_formatting e = false
                      /\ is_mounting e = false)
       (emitted (run w replies))
  /\ ~ In (EPrint "Invalid disk selected.") (emitted (run w replies))
  /\ (forall typed,
        In (EInput disk_prompt (Typed typed)) (emitted (run w replies)) ->
        exists front,
          emitted (run w replies)
          = (front ++ [EInput disk_prompt (Typed typed);
                       EPrint ("An error occurred: " ++ none_not_iterable)])%list).
Proof.
  destruct (run_stops_at_disk_selection w replies) as (Hcode & Hun & Hlast).
  split; [reflexivity|]. split; [exact Hcode|]. repeat split.
  - eapply Forall_impl; [|exact Hun].
    intros e He. apply untouched_parts in He. tauto.
  - intros Hin. rewrite Forall_forall in Hun.
    apply Hun, untouched_parts in Hin. cbn in Hin. intuition discriminate.
  - exact Hlast.
Qed.

(** A run on a healthy machine where the operator names a real disk. *)
Example run_with_real_disk :
  let o := run (healthy_world 512 2097152 silent) [Typed "sda"; Typed "1"] in
  res o = Raise (SystemExit 1)
  /\ emitted o
     = [ EPrint "Arch Linux Installation Script";
         EPrint "=================================";
         EPrint "Boot mode: UEFI";
         EPrint "Checking internet connectivity...";
         ERun "ping -c 1 archlinux.org";
         EPrint "Internet connection confirmed.";
         EPrint "Detecting available disks...";
         EPrint "Available disks: None";
         EInput disk_prompt (Typed "sda");
         EPrint "An error occurred: 'NoneType' object is not iterable" ]
  /\ unread o = [Typed "1"].
Proof. repeat split; vm_compute; reflexivity. Qed.

(** * Further properties *)

(** ** The command executor *)

Lemma in_commands (t : list event) (c : string) :
  In c (commands t) -> In (ERun c) t \/ In (ECheckOutput c) t.
Proof.
  induction t as [|e t IH]; [intros []|].
  destruct e; cbn [commands]; intros H;
    try (destruct (IH H); [left|right]; right; assumption).
  - destruct H as [->|H]; [left; left; reflexivity|].
    destruct (IH H); [left|right]; right; assumption.
  - destruct H as [->|H]; [right; left; reflexivity|].
    destruct (IH H); [left|right]; right; assumption.
Qed.

(** The three ways [run_command] ends, by the way the command ends. *)
Lemma run_command_cases w c h i :
  run_command w c h i
  = match shell w h c with
    | Exited 0 out err => mkOut (Ok (out, err)) [ERun c] i
    | Exited rc out err =>
        mkOut (Raise (CalledProcessError c rc err))
          [ERun c; EPrint ("Error executing command: " ++ c); EPrint ("Output: " ++ err)] i
    | Killed => mkOut (Raise KeyboardInterrupt) [ERun c] i
    end.
Proof.
  unfold_script. destruct (shell w h c) as [[|rc] out err|]; reflexivity.
Qed.


(** ** The network step *)

Lemma returns_run_command w c h i out err :
  shell w h c = Exited 0 out err ->
  returns (run_command w c) h i (out, err) [ERun c] i.
Proof. intros E. unfold returns. rewrite run_command_cases, E. reflexivity. Qed.

Lemma outcome_run_command_fails w c h i rc out err :
  shell w h c = Exited (N.pos rc) out err ->
  outcome (run_command w c) h i (Raise (CalledProcessError c (N.pos rc) err))
    [ERun c; EPrint ("Error executing command: " ++ c); EPrint ("Output: " ++ err)] i.
Proof. intros E. unfold outcome. rewrite run_command_cases, E. reflexivity. Qed.

Lemma outcome_run_command_killed w c h i :
  shell w h c = Killed ->
  outcome (run_command w c) h i (Raise KeyboardInterrupt) [ERun c] i.
Proof. intros E. unfold outcome. rewrite run_command_cases, E. reflexivity. Qed.

Lemma outcome_try_except_ok {A} (m : M A) handler h i a ev i' :
  returns m h i a ev i' -> outcome (try_except m handler) h i (Ok a) ev i'.
Proof. unfold returns, outcome, try_except. intros ->. reflexivity. Qed.

Lemma outcome_try_except_caught {A} (m : M A) handler h i e k ev i' r ev' i'' :
  outcome m h i (Raise e) ev i' ->
  handler e = Some k ->
  outcome k (h ++ ev) i' r ev' i'' ->
  outcome (try_except m handler) h i r (ev ++ ev') i''.
Proof.
  unfold outcome, try_except. intros -> Hk. cbn [res emitted unread].
  rewrite Hk. intros ->. reflexivity.
Qed.

Lemma outcome_try_except_passed {A} (m : M A) handler h i e ev i' :
  outcome m h i (Raise e) ev i' ->
  handler e = None ->
  outcome (try_except m handler) h i (Raise e) ev i'.
Proof.
  unfold outcome, try_except. intros -> Hk. cbn [res emitted unread].
  rewrite Hk. reflexivity.
Qed.

Lemma outcome_events {A} (m : M A) h i r ev ev' i' :
  outcome m h i r ev i' -> ev = ev' -> outcome m h i r ev' i'.
Proof. intros H <-. exact H. Qed.

Lemma check_internet_online w h i out err :
  shell w (h ++ [checking])%list ping = Exited 0 out err ->
  returns (check_internet w) h i true online_events i.
Proof.
  intros E. unfold check_internet. eapply returns_events.
  - eapply returns_bind; [apply returns_print|].
    apply outcome_try_except_ok.
    eapply returns_bind; [exact (returns_run_command w _ _ _ _ _ E)|].
    eapply returns_bind; [apply returns_print|]. apply returns_ret.
  - reflexivity.
Qed.

Lemma check_internet_offline w h i rc out err :
  shell w (h ++ [checking])%list ping = Exited (N.pos rc) out err ->
  returns (check_internet w) h i false (offline_events err) i.
Proof.
  intros E. unfold check_internet. eapply returns_events.
  - eapply returns_bind; [apply returns_print|].
    eapply outcome_try_except_caught.
    + eapply outcome_bind_raise. exact (outcome_run_command_fails w _ _ _ _ _ _ E).
    + reflexivity.
    + eapply returns_bind; [apply returns_print|]. apply returns_ret.
  - reflexivity.
Qed.

Lemma check_internet_killed w h i :
  shell w (h ++ [checking])%list ping = Killed ->
  outcome (check_internet w) h i (Raise KeyboardInterrupt) [checking; ERun ping] i.
Proof.
  intros E. unfold check_internet. eapply outcome_events.
  - eapply outcome_bind_ok; [apply returns_print|].
    eapply outcome_try_except_passed.
    + eapply outcome_bind_raise. exact (outcome_run_command_killed w _ _ _ E).
    + reflexivity.
  - reflexivity.
Qed.

(** X2.  [check_internet] runs the ping and nothing else.  It answers
    [True] when the ping exits with 0 and [False] when it exits with any
    other status: the [CalledProcessError] of the ping never leaves the
    function.  Only an interrupt of the ping does. *)
Theorem check_internet_result w h i :
  let o := check_internet w h i in
  res o = match shell w (h ++ [checking])%list ping with
          | Exited 0 _ _ => Ok true
          | Exited _ _ _ => Ok false
          | Killed => Raise KeyboardInterrupt
          end
  /\ commands (emitted o) = [ping]
  /\ unread o = i.
Proof.
  cbv zeta.
  destruct (shell w (h ++ [checking])%list ping) as [[|rc] out err|] eqn:E.
  - rewrite (check_internet_online w h i out err E). repeat split.
  - rewrite (check_internet_offline w h i rc out err E). repeat split.
  - rewrite (check_internet_killed w h i E). repeat split.
Qed.

(** X3.  When the first ping succeeds, [configure_network] is done: it runs
    no other command, asks nothing and leaves the operator's replies
    unread. *)
Theorem configure_network_online w h i out err :
  shell w (h ++ [checking])%list ping = Exited 0 out err ->
  configure_network w h i = mkOut (Ok tt) online_events i.
Proof.
  intros E. unfold configure_network.
  eapply outcome_intro.
  - eapply outcome_bind_ok; [exact (check_internet_online w h i out err E)|].
    reflexivity.
  - apply app_nil_r.
Qed.

Lemma configure_network_online_witness :
  configure_network (healthy_world 512 2097152 silent) [] [Typed "2"]
  = mkOut (Ok tt) online_events [Typed "2"].
Proof.
  exact (configure_network_online (healthy_world 512 2097152 silent) [] [Typed "2"]
           EmptyString EmptyString eq_refl).
Defined.



Ltac safe_side ::=
  intros; cbn;
  try exact I; try reflexivity; try discriminate; try (split; reflexivity);
  try match goal with a : unit |- _ => destruct a; reflexivity end;
  try congruence;
  try solve [unfold network_command; cbn; auto 6].

Lemma Forall_commands (P : string -> Prop) (t : list event) :
  Forall (fun e => match e with
                   | ERun c | ECheckOutput c => P c
                   | _ => True
                   end) t ->
  Forall P (commands t).
Proof.
  induction 1 as [|e t He _ IH]; [constructor|].
  destruct e; cbn [commands]; try exact IH; constructor; assumption.
Qed.


(** ** The layout of the automatic plan *)





Lemma outcome_floordiv_zero a h i :
  outcome (floordiv a 0) h i (Raise ZeroDivisionError) [] i.
Proof. reflexivity. Qed.

(** X7.  On a device that reports a sector size of 0, a plan with an EFI or
    a swap partition stops with [ZeroDivisionError] right after the fresh
    partition table is requested: no partition is added and nothing is
    committed.  A plan with the root partition alone never divides and
    returns its single path. *)
Theorem auto_partition_zero_sector_size w disk (uefi swap : bool) h i :
  backend_accepts w ->
  sectorSize (device w ("/dev/" ++ disk)) = 0%Z ->
  let o := auto_partition_disk w disk uefi swap h i in
  (uefi || swap = true ->
   res o = Raise ZeroDivisionError
   /\ planned (emitted o) = []
   /\ ~ In (EParted Commit) (emitted o))
  /\ (uefi || swap = false -> res o = Ok ["/dev/" ++ disk ++ "1"]).
Proof.
  intros Hb Hs. cbv zeta. split; intros Hus.
  - assert (H : outcome (auto_partition_disk w disk uefi swap) h i (Raise ZeroDivisionError)
                  [EPrint ("Partitioning disk: /dev/" ++ disk);
                   EParted (GetDevice ("/dev/" ++ disk));
                   EParted (FreshDisk ("/dev/" ++ disk) "gpt")] i).
    { unfold auto_partition_disk. rewrite Hs.
      destruct uefi; [|destruct swap; [|discriminate Hus]].
      - eapply outcome_events.
        + eapply outcome_bind_ok; [apply returns_print|].
          eapply outcome_bind_ok; [apply returns_parted_call, Hb|].
          eapply outcome_bind_ok; [apply returns_parted_call, Hb|].
          eapply outcome_bind_raise. eapply outcome_bind_raise.
          apply outcome_floordiv_zero.
        + reflexivity.
      - eapply outcome_events.
        + eapply outcome_bind_ok; [apply returns_print|].
          eapply outcome_bind_ok; [apply returns_parted_call, Hb|].
          eapply outcome_bind_ok; [apply returns_parted_call, Hb|].
          eapply outcome_bind_ok; [apply returns_ret|].
          eapply outcome_bind_raise. eapply outcome_bind_raise.
          apply outcome_floordiv_zero.
        + reflexivity. }
    unfold outcome in H. rewrite H. cbn [res emitted planned]. repeat split.
    intros [Hc|[Hc|[Hc|[]]]]; discriminate Hc.
  - apply orb_false_iff in Hus. destruct Hus as [-> ->].
    assert (H : exists ev, returns (auto_partition_disk w disk false false) h i
                             ["/dev/" ++ disk ++ "1"] ev i).
    { eexists. unfold auto_partition_disk, new_geometry, new_partition, addPartition.
      repeat returns_step. }
    destruct H as [ev H]. unfold returns in H. rewrite H. reflexivity.
Qed.

Lemma auto_partition_zero_sector_size_witness :
  let o := auto_partition_disk (healthy_world 0 2097152 silent) "sda" true false [] [] in
  (true || false = true ->
   res o = Raise ZeroDivisionError
   /\ planned (emitted o) = []
   /\ ~ In (EParted Commit) (emitted o))
  /\ (true || false = false -> res o = Ok ["/dev/" ++ "sda" ++ "1"]).
Proof.
  exact (auto_partition_zero_sector_size (healthy_world 0 2097152 silent) "sda" true false [] []
           (healthy_backend_accepts 0 2097152 silent) eq_refl).
Defined.

(** ** The choice of a partitioning *)



(** ** Manual partitioning *)





(** ** Formatting and mounting any list of paths *)

Lemma issues_post w {A} (m : M A) (Q Q' : A -> Prop) cs :
  issues w m Q cs -> (forall a, Q a -> Q' a) -> issues w m Q' cs.
Proof.
  intros Hm HQ h i. destruct (Hm h i) as (Hpre & Hok & Hsucc).
  split; [exact Hpre|]. split; [|exact Hsucc].
  intros a Ha. destruct (Hok a Ha). split; [apply HQ|]; assumption.
Qed.

Lemma issues_format_one w n uefi i part :
  exists k, issues w (format_one w n uefi i part) (fun _ => True) (format_commands k part).
Proof.
  unfold format_one.
  destruct (uefi && (i =? 0)%nat);
    [|destruct (((n =? 3)%nat && (i =? 1)%nat) || (negb uefi && (n =? 2)%nat && (i =? 0)%nat))].
  - exists EFI. eapply issues_commands;
      [eapply issues_post; [repeat issues_step|trivial]|reflexivity].
  - exists SWAP. eapply issues_commands;
      [eapply issues_post; [repeat issues_step|trivial]|reflexivity].
  - exists ROOT. eapply issues_commands;
      [eapply issues_post; [repeat issues_step|trivial]|reflexivity].
Qed.

Lemma issues_format_loop w n uefi parts :
  forall i,
  exists kinds,
    length kinds = length parts
    /\ issues w (format_loop w n uefi i parts) (fun _ => True) (format_plan kinds parts).
Proof.
  induction parts as [|part parts IH]; intros i.
  - exists []. split; [reflexivity|].
    eapply issues_post; [apply issues_ret|trivial].
  - destruct (issues_format_one w n uefi i part) as [k Hk].
    destruct (IH (S i)) as (kinds & Hlen & Hl).
    exists (k :: kinds). split; [cbn; rewrite Hlen; reflexivity|].
    cbn [format_loop].
    change (format_plan (k :: kinds) (part :: parts))
      with (format_commands k part ++ format_plan kinds parts)%list.
    eapply issues_bind; [exact Hk|]. intros _ _. exact Hl.
Qed.

(** X10.  Whatever the list of paths and the firmware mode,
    [format_partitions] goes through the paths in the order of the list and
    gives each of them exactly one treatment: the FAT32 format, the swap
    format with its activation, or the EXT4 format.  No path is left out
    and none is formatted twice; a failing command stops the sequence. *)
Theorem format_each_path_once w partitions uefi h i :
  exists kinds,
    length kinds = length partitions
    /\ let cs := commands (emitted (format_partitions w partitions uefi h i)) in
       initial_part cs (format_plan kinds partitions)
       /\ (commands_succeed w -> cs = format_plan kinds partitions).
Proof.
  destruct (issues_format_loop w (length partitions) uefi partitions 0)
    as (kinds & Hlen & Hl).
  exists kinds. split; [exact Hlen|]. cbv zeta.
  eapply issues_run. unfold format_partitions.
  eapply issues_commands.
  - eapply issues_bind; [apply issues_print|]. intros _ _.
    eapply issues_bind; [exact Hl|]. intros _ _. apply issues_print.
  - cbn. apply app_nil_r.
Qed.

Lemma safe_format_loop w n uefi parts :
  n <> 3 -> (n = 2 -> uefi = true) ->
  forall i,
    safe (fun e => match e with
                   | ERun c | ECheckOutput c => not_swap_command c
                   | _ => True
                   end)
      (fun _ => True) (fun _ => True) (format_loop w n uefi i parts).
Proof.
  intros H3 H2.
  assert (Hc : forall i, ((n =? 3)%nat && (i =? 1)%nat)
                         || (negb uefi && (n =? 2)%nat && (i =? 0)%nat) = false).
  { intros i. apply Nat.eqb_neq in H3. rewrite H3. cbn [andb orb].
    destruct (n =? 2)%nat eqn:E2.
    - apply Nat.eqb_eq in E2. rewrite (H2 E2). reflexivity.
    - destruct uefi; reflexivity. }
  induction parts as [|part parts IH]; intros i; cbn [format_loop].
  - eapply safe_post; [apply safe_ret|trivial].
  - eapply safe_bind with (Q := fun _ => True); [|intros _ _; apply IH].
    unfold format_one. rewrite Hc.
    destruct (uefi && (i =? 0)%nat); repeat safe_step.
Qed.

(** X11.  The swap format and the swap activation are run only for a list
    of three paths, or for a list of two paths under BIOS: for every other
    list no path is made swap, whatever the operator meant the paths to
    be. *)
Theorem format_swap_only_for_two_or_three w partitions uefi h i :
  length partitions <> 3 ->
  (length partitions = 2 -> uefi = true) ->
  Forall not_swap_command (commands (emitted (format_partitions w partitions uefi h i))).
Proof.
  intros H3 H2.
  assert (H : safe (fun e => match e with
                             | ERun c | ECheckOutput c => not_swap_command c
                             | _ => True
                             end)
                (fun _ => True) (fun _ => True) (format_partitions w partitions uefi)).
  { unfold format_partitions.
    eapply safe_bind with (Q := fun _ => True); [apply safe_print; exact I|intros _ _].
    eapply safe_bind with (Q := fun _ => True);
      [apply safe_format_loop; assumption|intros _ _].
    apply safe_print. exact I. }
  destruct (H h i) as (Hev & _). apply Forall_commands, Hev.
Qed.

Lemma format_swap_only_for_two_or_three_witness :
  Forall not_swap_command
    (commands (emitted (format_partitions (healthy_world 512 2097152 silent)
                          ["/dev/sda1"; "/dev/sda2"; "/dev/sda3"; "/dev/sda4"] false [] []))).
Proof.
  apply (format_swap_only_for_two_or_three (healthy_world 512 2097152 silent)
           ["/dev/sda1"; "/dev/sda2"; "/dev/sda3"; "/dev/sda4"] false [] []);
    cbn; [discriminate|discriminate].
Defined.

Lemma hd_commands_bind {A B} (m : M A) (f : A -> M B) h i c :
  hd_error (commands (emitted (m h i))) = Some c ->
  hd_error (commands (emitted (bind m f h i))) = Some c.
Proof.
  intros H. unfold bind. destruct (res (m h i)); cbn [emitted]; [|exact H].
  rewrite commands_app. destruct (commands (emitted (m h i))); [discriminate H|exact H].
Qed.

(** X12.  Under UEFI the first path of the list is always given the FAT32
    format, by the first command run, also when it is the only path: a list
    of one path gets no EXT4 file system at all, although the mount step
    takes the last path of the list as the root. *)
Theorem format_uefi_first_path w p rest h i :
  let cs := commands (emitted (format_partitions w (p :: rest) true h i)) in
  hd_error cs = Some ("mkfs.fat -F32 " ++ p)
  /\ (rest = [] -> cs = ["mkfs.fat -F32 " ++ p]).
Proof.
  cbv zeta.
  assert (Hhd : hd_error (commands (emitted (format_partitions w (p :: rest) true h i)))
                = Some ("mkfs.fat -F32 " ++ p)).
  { unfold format_partitions.
    unfold bind at 1. cbn [print emit res emitted unread app commands].
    apply hd_commands_bind. cbn [format_loop]. apply hd_commands_bind.
    unfold format_one. cbn [andb Nat.eqb]. apply run_command_first. }
  split; [exact Hhd|].
  intros ->.
  assert (Hi : issues w (format_partitions w [p] true) (fun _ => True)
                 ["mkfs.fat -F32 " ++ p]).
  { eapply issues_commands.
    - unfold format_partitions, format_loop, format_one.
      cbn -[bind run_command print ret String.append].
      repeat issues_step.
    - reflexivity. }
  destruct (Hi h i) as ([tail Htail] & _).
  destruct (commands (emitted (format_partitions w [p] true h i))) as [|c [|c' cs]];
    cbn [hd_error app] in Hhd, Htail.
  - discriminate Hhd.
  - injection Hhd as ->. reflexivity.
  - injection Htail as _ Hnil. discriminate Hnil.
Qed.

(** X13.  A blank line after cfdisk makes [partition_disk] return the empty
    list.  On the empty list [format_partitions] runs no command and
    returns, and [mount_partitions] raises [IndexError] before it runs any
    command: the installation stops there. *)
Theorem empty_path_list w disk uefi line h i :
  commands_succeed w ->
  Py.strip line = EmptyString ->
  res (partition_disk w disk uefi h (Typed "3" :: Typed line :: i)) = Ok []
  /\ (forall h' i',
        res (format_partitions w [] uefi h' i') = Ok tt
        /\ commands (emitted (format_partitions w [] uefi h' i')) = [])
  /\ (forall h' i',
        res (mount_partitions w [] uefi h' i') = Raise (IndexError "list index out of range")
        /\ commands (emitted (mount_partitions w [] uefi h' i')) = []).
Proof.
  intros Hs Hblank. split; [|split; intros h' i'; split; reflexivity].
  assert (H : exists ev, returns (partition_disk w disk uefi) h (Typed "3" :: Typed line :: i)
                           (Py.split (Py.strip line)) ev i).
  { eexists. unfold partition_disk, manual_partitioning.
    do 5 (eapply returns_bind; [apply returns_print|]).
    eapply returns_bind; [apply returns_input|]. cbv beta zeta.
    replace (Py.strip "3" =? "1") with false by reflexivity.
    replace (Py.strip "3" =? "2") with false by reflexivity.
    replace (Py.strip "3" =? "3") with true by reflexivity.
    cbv iota. repeat returns_step. }
  destruct H as [ev H]. unfold returns in H. rewrite H, Hblank. reflexivity.
Qed.

Lemma empty_path_list_witness :
  let w := healthy_world 512 2097152 silent in
  res (partition_disk w "sda" true [] [Typed "3"; Typed "   "]) = Ok []
  /\ (forall h' i',
        res (format_partitions w [] true h' i') = Ok tt
        /\ commands (emitted (format_partitions w [] true h' i')) = [])
  /\ (forall h' i',
        res (mount_partitions w [] true h' i') = Raise (IndexError "list index out of range")
        /\ commands (emitted (mount_partitions w [] true h' i')) = []).
Proof.
  exact (empty_path_list (healthy_world 512 2097152 silent) "sda" true "   " [] []
           (healthy_commands_succeed 512 2097152 silent) eq_refl).
Defined.

(** ** The desktop environment *)

Lemma desktops_have_display_manager c name packages dm :
  dict_get desktops c = Some (name, packages, dm) ->
  c <> "8" ->
  dm <> EmptyString.
Proof.
  unfold desktops. cbn [dict_get]. intros H Hc.
  repeat match type of H with
         | (if ?k =? c then _ else _) = _ =>
             let E := fresh "E" in
             destruct (k =? c) eqn:E;
             [ first [ injection H as <- <- <-; discriminate
                     | apply String.eqb_eq in E; congruence ]
             | ]
         end.
  discriminate H.
Qed.



(** X15.  For every answer that is a key of the table other than 8, when
    the commands succeed, [install_desktop_environment] installs the
    packages of that desktop together with xorg and then enables its display
    manager: two commands, in that order.  No desktop of the table lacks a
    display manager. *)
Theorem install_desktop_environment_installs w line name packages dm h i :
  commands_succeed w ->
  dict_get desktops (desktop_choice line) = Some (name, packages, dm) ->
  desktop_choice line <> "8" ->
  let o := install_desktop_environment w h (Typed line :: i) in
  res o = Ok tt
  /\ commands (emitted o)
     = [ "arch-chroot /mnt pacman -S --noconfirm " ++ packages ++ " xorg";
         "arch-chroot /mnt systemctl enable " ++ dm ]
  /\ dm <> EmptyString.
Proof.
  intros Hs Hget Hne.
  pose proof (desktops_have_display_manager _ _ _ _ Hget Hne) as Hdm.
  apply String.eqb_neq in Hne.
  assert (Hr : exists ev,
             returns (install_desktop_environment w) h (Typed line :: i) tt ev i
             /\ commands ev
                = [ "arch-chroot /mnt pacman -S --noconfirm " ++ packages ++ " xorg";
                    "arch-chroot /mnt systemctl enable " ++ dm ]).
  { unfold install_desktop_environment. cbn [print_options desktops].
    destruct dm as [|a dm']; [contradiction|].
    eexists. split.
    - eapply returns_bind; [apply returns_print|].
      eapply returns_bind; [repeat returns_step|].
      eapply returns_bind; [apply returns_input|]. cbv beta zeta.
      change (Py.or_else (Py.strip line) "8") with (desktop_choice line).
      rewrite Hget, Hne. cbn [negb]. cbv iota.
      repeat returns_step.
    - reflexivity. }
  destruct Hr as (ev & Hrun & Hc). unfold returns in Hrun. cbv zeta. rewrite Hrun.
  repeat split; assumption.
Qed.

Lemma install_desktop_environment_installs_witness :
  let o := install_desktop_environment (healthy_world 512 2097152 silent) []
             [Typed "3"] in
  res o = Ok tt
  /\ commands (emitted o)
     = [ "arch-chroot /mnt pacman -S --noconfirm "
           ++ "xfce4 xfce4-goodies lightdm lightdm-gtk-greeter" ++ " xorg";
         "arch-chroot /mnt systemctl enable " ++ "lightdm" ]
  /\ "lightdm" <> EmptyString.
Proof.
  exact (install_desktop_environment_installs (healthy_world 512 2097152 silent) "3"
           "XFCE" "xfce4 xfce4-goodies lightdm lightdm-gtk-greeter" "lightdm" [] []
           (healthy_commands_succeed 512 2097152 silent) eq_refl ltac:(discriminate)).
Defined.

(** ** The bootloader *)

(** X16.  Under BIOS [install_bootloader] asks nothing and installs GRUB
    for legacy boot on the whole disk: the grub package, [grub-install] for
    the target i386-pc on [/dev/<disk>], and the generation of the
    configuration, in that order; a failing command stops the sequence. *)
Theorem install_bootloader_bios_grub w depth disk h i :
  let o := install_bootloader w (S depth) disk false h i in
  let grub := [ chroot_cmd "pacman -S --noconfirm grub";
                chroot_cmd ("grub-install --target=i386-pc /dev/" ++ disk);
                chroot_cmd "grub-mkconfig -o /boot/grub/grub.cfg" ] in
  initial_part (commands (emitted o)) grub
  /\ (commands_succeed w -> commands (emitted o) = grub /\ res o = Ok tt)
  /\ bootloader_prompts (emitted o) = 0.
Proof.
  cbv zeta.
  assert (Hi : issues w (install_bootloader w (S depth) disk false) (fun _ => True)
                 [ chroot_cmd "pacman -S --noconfirm grub";
                   chroot_cmd ("grub-install --target=i386-pc /dev/" ++ disk);
                   chroot_cmd "grub-mkconfig -o /boot/grub/grub.cfg" ]).
  { cbn [install_bootloader negb]. eapply issues_commands.
    - eapply issues_bind.
      + eapply issues_bind; [apply issues_print|]. intros _ _. apply issues_ret.
      + intros choice <-.
        replace ("1" =? "1") with true by reflexivity. cbv iota.
        repeat issues_step.
    - reflexivity. }
  destruct (Hi h i) as (Hpre & Hok & Hsucc).
  split; [exact Hpre|]. split.
  - intros Hs. destruct (Hsucc Hs) as [[] Ha]. split; [apply (Hok tt Ha)|exact Ha].
  - apply install_bootloader_bios_never_retries.
Qed.

Lemma returns_write_file w path pieces h i :
  files_open w ->
  returns (write_file w path pieces) h i tt
    [EWriteFile path (String.concat EmptyString pieces)] i.
Proof. intros Hf. unfold returns, write_file. rewrite Hf. reflexivity. Qed.

Lemma returns_check_output w c h i out err :
  shell w h c = Exited 0 out err ->
  returns (check_output w c) h i out [ECheckOutput c] i.
Proof. intros E. unfold returns, check_output. rewrite E. reflexivity. Qed.

(** X17.  Under UEFI, when the commands succeed, a blank line and the
    answer 1 install GRUB for EFI (the grub package, efibootmgr,
    [grub-install] for the target x86_64-efi on [/boot], the generation of
    the configuration) and the answer 3 installs rEFInd (the package, then
    its installer); neither writes a file nor asks a second time. *)
Theorem install_bootloader_uefi_choice w depth disk line h i :
  commands_succeed w ->
  let o := install_bootloader w (S depth) disk true h (Typed line :: i) in
  (bootloader_choice line = "1" ->
   res o = Ok tt
   /\ commands (emitted o)
      = [ chroot_cmd "pacman -S --noconfirm grub";
          chroot_cmd "pacman -S --noconfirm efibootmgr";
          chroot_cmd "grub-install --target=x86_64-efi --efi-directory=/boot --bootloader-id=GRUB";
          chroot_cmd "grub-mkconfig -o /boot/grub/grub.cfg" ]
   /\ written (emitted o) = []
   /\ unread o = i)
  /\ (bootloader_choice line = "3" ->
      res o = Ok tt
      /\ commands (emitted o)
         = [ chroot_cmd "pacman -S --noconfirm refind"; chroot_cmd "refind-install" ]
      /\ written (emitted o) = []
      /\ unread o = i).
Proof.
  intros Hs. cbv zeta. split; intros Hc.
  - assert (Hr : exists ev,
               returns (install_bootloader w (S depth) disk true) h (Typed line :: i) tt ev i
               /\ commands ev
                  = [ chroot_cmd "pacman -S --noconfirm grub";
                      chroot_cmd "pacman -S --noconfirm efibootmgr";
                      chroot_cmd "grub-install --target=x86_64-efi --efi-directory=/boot --bootloader-id=GRUB";
                      chroot_cmd "grub-mkconfig -o /boot/grub/grub.cfg" ]
               /\ written ev = []).
    { eexists. split; [|split].
      - cbn [install_bootloader negb]. cbv iota.
        eapply returns_bind; [repeat returns_step|]. cbv beta.
        change (Py.or_else (Py.strip line) "1") with (bootloader_choice line). rewrite Hc.
        replace ("1" =? "1") with true by reflexivity. cbv iota.
        repeat returns_step.
      - reflexivity.
      - reflexivity. }
    destruct Hr as (ev & Hrun & Hcs & Hw). unfold returns in Hrun. rewrite Hrun.
    repeat split; assumption.
  - assert (Hr : exists ev,
               returns (install_bootloader w (S depth) disk true) h (Typed line :: i) tt ev i
               /\ commands ev
                  = [ chroot_cmd "pacman -S --noconfirm refind"; chroot_cmd "refind-install" ]
               /\ written ev = []).
    { eexists. split; [|split].
      - cbn [install_bootloader negb]. cbv iota.
        eapply returns_bind; [repeat returns_step|]. cbv beta.
        change (Py.or_else (Py.strip line) "1") with (bootloader_choice line). rewrite Hc.
        replace ("3" =? "1") with false by reflexivity.
        replace (("3" =? "2") && true) with false by reflexivity.
        replace (("3" =? "3") && true) with true by reflexivity. cbv iota.
        repeat returns_step.
      - reflexivity.
      - reflexivity. }
    destruct Hr as (ev & Hrun & Hcs & Hw). unfold returns in Hrun. rewrite Hrun.
    repeat split; assumption.
Qed.

Lemma install_bootloader_uefi_choice_witness :
  let o := install_bootloader (healthy_world 512 2097152 silent) 1 "sda" true []
             [Typed EmptyString] in
  (bootloader_choice EmptyString = "1" ->
   res o = Ok tt
   /\ commands (emitted o)
      = [ chroot_cmd "pacman -S --noconfirm grub";
          chroot_cmd "pacman -S --noconfirm efibootmgr";
          chroot_cmd "grub-install --target=x86_64-efi --efi-directory=/boot --bootloader-id=GRUB";
          chroot_cmd "grub-mkconfig -o /boot/grub/grub.cfg" ]
   /\ written (emitted o) = []
   /\ unread o = [])
  /\ (bootloader_choice EmptyString = "3" ->
      res o = Ok tt
      /\ commands (emitted o)
         = [ chroot_cmd "pacman -S --noconfirm refind"; chroot_cmd "refind-install" ]
      /\ written (emitted o) = []
      /\ unread o = []).
Proof.
  exact (install_bootloader_uefi_choice (healthy_world 512 2097152 silent) 0 "sda"
           EmptyString [] [] (healthy_commands_succeed 512 2097152 silent)).
Defined.

(** X18.  Under UEFI with the choice of systemd-boot, when the commands
    succeed and the files can be written, [install_bootloader] writes two
    files: the loader configuration (default entry arch, timeout 3, editor
    off) and then the entry, whose options line carries what [blkid] printed
    for the second partition of the disk, stripped of white space. *)
Theorem install_systemd_boot_files w depth disk line h i :
  commands_succeed w ->
  files_open w ->
  bootloader_choice line = "2" ->
  exists out err,
    shell w (h ++ systemd_boot_start line)%list (blkid_query disk) = Exited 0 out err
    /\ let o := install_bootloader w (S depth) disk true h (Typed line :: i) in
       res o = Ok tt
       /\ written (emitted o)
          = [ ("/mnt/boot/loader/loader.conf", loader_conf);
              ("/mnt/boot/loader/entries/arch.conf", loader_entry (Py.strip out)) ]
       /\ commands (emitted o)
          = [ chroot_cmd "pacman -S --noconfirm efibootmgr";
              chroot_cmd "bootctl --path=/boot install";
              blkid_query disk ].
Proof.
  intros Hs Hf Hc.
  destruct (Hs (h ++ systemd_boot_start line)%list (blkid_query disk)) as (out & err & E).
  exists out, err. split; [exact E|]. cbv zeta.
  assert (Hr : exists ev,
             returns (install_bootloader w (S depth) disk true) h (Typed line :: i) tt ev i
             /\ written ev
                = [ ("/mnt/boot/loader/loader.conf", loader_conf);
                    ("/mnt/boot/loader/entries/arch.conf", loader_entry (Py.strip out)) ]
             /\ commands ev
                = [ chroot_cmd "pacman -S --noconfirm efibootmgr";
                    chroot_cmd "bootctl --path=/boot install";
                    blkid_query disk ]).
  { eexists. split; [|split].
    - cbn [install_bootloader negb]. cbv iota.
      eapply returns_bind; [repeat returns_step|]. cbv beta.
      change (Py.or_else (Py.strip line) "1") with (bootloader_choice line). rewrite Hc.
      replace ("2" =? "1") with false by reflexivity.
      replace (("2" =? "2") && true) with true by reflexivity. cbv iota.
      eapply returns_bind; [|apply returns_print].
      eapply returns_bind; [apply returns_print|].
      eapply returns_bind_completes; [apply completes_run_command, Hs|intros _].
      eapply returns_bind_completes; [apply completes_run_command, Hs|intros _].
      eapply returns_bind; [apply returns_write_file, Hf|].
      eapply returns_bind.
      + apply returns_check_output with (err := err).
        repeat rewrite <- app_assoc. exact E.
      + cbv beta zeta. apply returns_write_file, Hf.
    - reflexivity.
    - reflexivity. }
  destruct Hr as (ev & Hrun & Hw & Hcs). unfold returns in Hrun. rewrite Hrun.
  repeat split; assumption.
Qed.

Lemma install_systemd_boot_files_witness :
  exists out err,
    shell (healthy_world 512 2097152 blkid_efi_swap_root)
      ([] ++ systemd_boot_start "2")%list (blkid_query "sda") = Exited 0 out err
    /\ let o := install_bootloader (healthy_world 512 2097152 blkid_efi_swap_root) 1 "sda"
                  true [] [Typed "2"] in
       res o = Ok tt
       /\ written (emitted o)
          = [ ("/mnt/boot/loader/loader.conf", loader_conf);
              ("/mnt/boot/loader/entries/arch.conf", loader_entry (Py.strip out)) ]
       /\ commands (emitted o)
          = [ chroot_cmd "pacman -S --noconfirm efibootmgr";
              chroot_cmd "bootctl --path=/boot install";
              blkid_query "sda" ].
Proof.
  exact (install_systemd_boot_files (healthy_world 512 2097152 blkid_efi_swap_root) 0 "sda"
           "2" [] [] (healthy_commands_succeed 512 2097152 blkid_efi_swap_root)
           (fun _ _ => eq_refl) eq_refl).
Defined.

(** ** The system configuration *)

Ltac safe_side ::=
  intros; cbn;
  try exact I; try reflexivity; try discriminate; try (split; reflexivity);
  try match goal with a : unit |- _ => destruct a; reflexivity end;
  try congruence;
  try solve [unfold network_command; cbn; auto 6];
  try solve [unfold in_chroot, blkid_query; cbn; auto].






(** ** DHCP *)

(** X21.  Without a connection and with the answer 1, [configure_network]
    runs dhcpcd and pings again.  It returns when that second ping
    succeeds, and ends the program with exit status 1 when it fails: the
    operator is not asked a second time. *)
Theorem configure_network_dhcp w h i line rc out err out' err' :
  shell w (h ++ [checking])%list ping = Exited (N.pos rc) out err ->
  Py.strip line = "1" ->
  shell w (h ++ offline_events err ++ network_menu line)%list "dhcpcd"
    = Exited 0 out' err' ->
  let o := configure_network w h (Typed line :: i) in
  let again :=
    shell w (h ++ offline_events err ++ network_menu line ++ [ERun "dhcpcd"; checking])%list
      ping in
  commands (emitted o) = [ping; "dhcpcd"; ping]
  /\ unread o = i
  /\ (forall o2 e2, again = Exited 0 o2 e2 -> res o = Ok tt)
  /\ (forall rc2 o2 e2, again = Exited (N.pos rc2) o2 e2 -> res o = Raise (SystemExit 1)).
Proof.
  intros E1 Hline Ed. cbv zeta.
  assert (Hstart : forall r ev,
            outcome (online <- check_internet w ;;
                     if online : bool then print "Network configured via DHCP."
                     else (print "DHCP failed. Please configure manually or try Wi-Fi." ;;
                           sys_exit 1))
              (h ++ offline_events err ++ network_menu line ++ [ERun "dhcpcd"])%list i r ev i ->
            outcome (configure_network w) h (Typed line :: i) r
              (offline_events err ++ network_menu line ++ [ERun "dhcpcd"] ++ ev)%list i).
  { intros r ev Hrest. unfold configure_network. eapply outcome_events.
    - eapply outcome_bind_ok; [exact (check_internet_offline w h _ rc out err E1)|].
      cbv beta iota.
      eapply outcome_bind_ok; [apply returns_print|].
      eapply outcome_bind_ok; [apply returns_input|].
      cbv beta zeta. rewrite Hline.
      replace ("1" =? "1") with true by reflexivity. cbv iota.
      eapply outcome_bind_ok.
      + apply returns_run_command with (out := out') (err := err').
        repeat rewrite <- app_assoc. exact Ed.
      + repeat rewrite <- app_assoc. cbn [app]. exact Hrest.
    - repeat rewrite <- app_assoc. reflexivity. }
  destruct (shell w
              (h ++ offline_events err ++ network_menu line ++ [ERun "dhcpcd"; checking])%list
              ping) as [[|rc2] o2 e2|] eqn:E2.
  - assert (Hrun : outcome (configure_network w) h (Typed line :: i) (Ok tt)
                     (offline_events err ++ network_menu line ++ [ERun "dhcpcd"]
                        ++ online_events ++ [EPrint "Network configured via DHCP."])%list i).
    { apply Hstart.
      eapply outcome_bind_ok.
      - apply check_internet_online with (out := o2) (err := e2).
        repeat rewrite <- app_assoc. exact E2.
      - cbv beta iota. apply returns_print. }
    unfold outcome in Hrun. rewrite Hrun. repeat split. discriminate.
  - assert (Hrun : outcome (configure_network w) h (Typed line :: i) (Raise (SystemExit 1))
                     (offline_events err ++ network_menu line ++ [ERun "dhcpcd"]
                        ++ offline_events e2
                        ++ [EPrint "DHCP failed. Please configure manually or try Wi-Fi."])%list i).
    { apply Hstart.
      eapply outcome_bind_ok.
      - apply check_internet_offline with (rc := rc2) (out := o2).
        repeat rewrite <- app_assoc. exact E2.
      - cbv beta iota. eapply outcome_events.
        + eapply outcome_bind_ok; [apply returns_print|]. reflexivity.
        + apply app_nil_r. }
    unfold outcome in Hrun. rewrite Hrun. repeat split. discriminate.
  - assert (Hrun : outcome (configure_network w) h (Typed line :: i) (Raise KeyboardInterrupt)
                     (offline_events err ++ network_menu line ++ [ERun "dhcpcd"]
                        ++ [checking; ERun ping])%list i).
    { apply Hstart.
      eapply outcome_bind_raise. apply check_internet_killed.
      repeat rewrite <- app_assoc. exact E2. }
    unfold outcome in Hrun. rewrite Hrun. repeat split; discriminate.
Qed.

Lemma configure_network_dhcp_witness :
  let o := configure_network wired_world [] [Typed "1"] in
  let again :=
    shell wired_world
      ([] ++ offline_events "ping: archlinux.org: Name or service not known"
          ++ network_menu "1" ++ [ERun "dhcpcd"; checking])%list ping in
  commands (emitted o) = [ping; "dhcpcd"; ping]
  /\ unread o = []
  /\ (forall o2 e2, again = Exited 0 o2 e2 -> res o = Ok tt)
  /\ (forall rc2 o2 e2, again = Exited (N.pos rc2) o2 e2 -> res o = Raise (SystemExit 1)).
Proof.
  exact (configure_network_dhcp wired_world [] [] "1" 2%positive EmptyString
           "ping: archlinux.org: Name or service not known" EmptyString EmptyString
           eq_refl eq_refl eq_refl).
Defined.

(** ** The base system *)

Lemma announce_run_report w a c b h i :
  (print a ;; run_command w c ;; print b) h i
  = match shell w (h ++ [EPrint a])%list c with
    | Exited 0 _ _ => mkOut (Ok tt) [EPrint a; ERun c; EPrint b] i
    | Exited rc _ err =>
        mkOut (Raise (CalledProcessError c rc err))
          [EPrint a; ERun c; EPrint ("Error executing command: " ++ c);
           EPrint ("Output: " ++ err)] i
    | Killed => mkOut (Raise KeyboardInterrupt) [EPrint a; ERun c] i
    end.
Proof.
  destruct (shell w (h ++ [EPrint a])%list c) as [[|rc] out err|] eqn:E.
  - eapply outcome_intro.
    + eapply outcome_bind_ok; [apply returns_print|].
      eapply outcome_bind_ok; [exact (returns_run_command w _ _ _ _ _ E)|].
      apply returns_print.
    + reflexivity.
  - eapply outcome_intro.
    + eapply outcome_bind_ok; [apply returns_print|].
      eapply outcome_bind_raise. exact (outcome_run_command_fails w _ _ _ _ _ _ E).
    + reflexivity.
  - eapply outcome_intro.
    + eapply outcome_bind_ok; [apply returns_print|].
      eapply outcome_bind_raise. exact (outcome_run_command_killed w _ _ _ E).
    + reflexivity.
Qed.

(** X22.  [install_base_system] and [generate_fstab] each run one command,
    and each prints its message of completion in exactly the runs in which
    that command exited with 0: a failure is never reported as done. *)
Theorem base_system_reports_done_only_on_success w h i :
  (commands (emitted (install_base_system w h i))
   = ["pacstrap /mnt base linux linux-firmware"]
   /\ (In (EPrint "Base system installed.") (emitted (install_base_system w h i))
       <-> res (install_base_system w h i) = Ok tt))
  /\ (commands (emitted (generate_fstab w h i)) = ["genfstab -U /mnt >> /mnt/etc/fstab"]
      /\ (In (EPrint "fstab generated.") (emitted (generate_fstab w h i))
          <-> res (generate_fstab w h i) = Ok tt)).
Proof.
  unfold install_base_system, generate_fstab. rewrite !announce_run_report.
  split.
  - destruct (shell w _ "pacstrap /mnt base linux linux-firmware") as [[|rc] out err|];
      (split; [reflexivity|]); split; intros H;
      first [ discriminate H
            | reflexivity
            | solve [cbn; auto 10]
            | repeat (destruct H as [H|H]; try discriminate H); contradiction ].
  - destruct (shell w _ "genfstab -U /mnt >> /mnt/etc/fstab") as [[|rc] out err|];
      (split; [reflexivity|]); split; intros H;
      first [ discriminate H
            | reflexivity
            | solve [cbn; auto 10]
            | repeat (destruct H as [H|H]; try discriminate H); contradiction ].
Qed.
